(** * restaurant-analysis: point-of-sale analysis scripts

    A shallow embedding of [src/utils.py], [src/heatmap.py],
    [src/ave_ticket_by_day.py] and [src/each_day_hourly.py], and the
    properties of the specification that concern them.

    Conventions of the embedding.
    - A pandas [DataFrame] is a list of column names and a list of typed
      rows.  A row has a cell for each of the eight loaded columns and for
      each of the six columns preprocessing attaches; what the cells of
      the six hold before preprocessing is of no consequence, every one
      is written before it is read.  The analyzer expects the eight loaded
      columns to be there, as the loader checks.
    - Server, table and payment type may be null ([None]); location, item
      name and item category are not, as in the data model.  Timestamps
      are [datetime64[ns]] values, nanoseconds since 1970-01-01T00:00,
      never NaT, so the conversion at the start of preprocessing has
      nothing to do.
    - Frames live in an object store: [df.copy()] allocates, a column
      assignment writes the object it is applied to.
    - A [float64] value is an IEEE 754 binary64 number as the standard
      library specifies it in [SpecFloat]: a signed zero, a signed
      infinity, NaN, or a sign, a mantissa and an exponent.  Sum,
      difference, product, quotient, square root and the comparisons are
      the operations of [SpecFloat] at precision 53, correctly rounded to
      nearest even; a decimal literal stands for the double nearest to
      it.
    - The reductions of pandas over a column of floats (sum, mean,
      variance) add up their terms in an order, and with a compensation,
      that the library chooses and the scripts do not fix.  They are a
      parameter [lib] of the development.  What does not depend on that
      choice is modelled: missing values are not counted, a column
      without values has the sum 0.0 and the mean NaN, the sample
      variance of fewer than two values is NaN, and the standard
      deviation is the square root of the variance.
    - Logging is modelled for the loader only; drawing and printing are
      not modelled. *)

From Stdlib Require Import ZArith QArith SpecFloat.
From stdpp Require Import base decidable option list gmap strings sorting.

Local Open Scope Z_scope.

(** ** float64 *)

Module Float64.

Definition prec : Z := 53.
Definition emax : Z := 1024.

Definition t : Set := spec_float.

Definition NaN : t := S754_nan.
Definition PInf : t := S754_infinity false.
Definition NInf : t := S754_infinity true.
Definition zero : t := S754_zero false.

#[global] Instance eq_dec : EqDecision t.
Proof. unfold t. solve_decision. Defined.

(** The conversion of an integer, rounded when it has more than 53
    bits. *)
Definition of_Z (z : Z) : t := binary_normalize prec emax z 0 false.

Definition isnan (x : t) : bool :=
  match x with S754_nan => true | _ => false end.

Definition isinf (x : t) : bool :=
  match x with S754_infinity _ => true | _ => false end.


Definition iszero (x : t) : bool :=
  match x with S754_zero _ => true | _ => false end.

Definition neg : t → t := SFopp.
Definition add : t → t → t := SFadd prec emax.
Definition sub : t → t → t := SFsub prec emax.
Definition mul : t → t → t := SFmul prec emax.

(** numpy's true division: x/0 is an infinity, 0/0 is NaN. *)
Definition div : t → t → t := SFdiv prec emax.
Definition sqrt : t → t := SFsqrt prec emax.

(** The comparisons; with NaN on a side they are false. *)
Definition leb : t → t → bool := SFleb.
Definition ltb : t → t → bool := SFltb.
Definition gtb (x y : t) : bool := ltb y x.
Definition geb (x y : t) : bool := leb y x.

(** The double a decimal literal denotes: the quotient of two integers,
    rounded once. *)
Definition of_Q (q : Q) : t := div (of_Z (Qnum q)) (of_Z (Zpos (Qden q))).

(** [numpy.rint]: the nearest integer, a tie going to the even one; the
    sign is kept, also on a zero result. *)
Definition rint (x : t) : t :=
  match x with
  | S754_finite s m e =>
      if 0 <=? e then x
      else
        let mrs := (shr (Build_shr_record (Zpos m) false false) e (- e)).1 in
        let n := round_nearest_even (shr_m mrs) (loc_of_shr_record mrs) in
        binary_normalize prec emax (cond_Zopp s n) 0 s
  | _ => x
  end.

(** [numpy.round(x, decimals)]: multiply by the power of ten, [rint],
    divide by the power of ten, each step rounded. *)
Definition round (decimals : nat) (x : t) : t :=
  match decimals with
  | O => rint x
  | _ =>
      let factor := of_Z (10 ^ Z.of_nat decimals) in
      div (rint (mul x factor)) factor
  end.

End Float64.

Abbreviation float64 := Float64.t.
Abbreviation NaN := Float64.NaN.

(** A decimal literal. *)
Abbreviation Fin := Float64.of_Q.

(** ** pandas Series reductions (NaN is skipped) *)

Module Series.

Definition dropna (xs : list float64) : list float64 :=
  List.filter (λ x, negb (Float64.isnan x)) xs.

Definition count (xs : list float64) : Z := Z.of_nat (length (dropna xs)).

(** What the library returns for a column that has enough values:
    [nansum] for [Series.sum()], the others for the aggregations of a
    group. *)
Record Reductions := mkReductions {
  nansum : list float64 → float64;
  group_sum : list float64 → float64;
  group_mean : list float64 → float64;
  group_var : list float64 → float64
}.

Section reductions.
Variable lib : Reductions.

(** [Series.sum()]. *)
Definition sum (xs : list float64) : float64 :=
  if decide (count xs = 0) then Float64.zero else nansum lib xs.

(** The aggregations ['sum'] and ['mean'] of a group. *)
Definition agg_sum (xs : list float64) : float64 :=
  if decide (count xs = 0) then Float64.zero else group_sum lib xs.

Definition agg_mean (xs : list float64) : float64 :=
  if decide (count xs = 0) then NaN else group_mean lib xs.

(** Sample variance and standard deviation ([ddof = 1]): NaN with fewer
    than two observations. *)
Definition agg_var (xs : list float64) : float64 :=
  if decide (count xs ≤ 1) then NaN else group_var lib xs.

Definition agg_std (xs : list float64) : float64 :=
  Float64.sqrt (agg_var xs).

End reductions.

(** Number of distinct values. *)
Definition nunique `{EqDecision A} (xs : list A) : Z :=
  Z.of_nat (length (remove_dups xs)).

End Series.

(** ** The data model *)

(** One row of a transaction table: the eight loaded columns and the six
    columns preprocessing attaches.  [None] is a missing (null) cell. *)
Record Row := mkRow {
  timestamp : Z;
  location : string;
  server_id : option string;
  table_number : option string;
  item_name : string;
  item_category : string;
  price : float64;
  payment_type : option string;
  date : Z;
  hour : Z;
  day_of_week : string;
  upper_bound : float64;
  lower_bound : float64;
  price_anomaly : bool
}.

Record DataFrame := mkDataFrame {
  columns : list string;
  rows : list Row
}.

Definition set_payment_type (v : option string) (r : Row) : Row :=
  mkRow (timestamp r) (location r) (server_id r) (table_number r)
    (item_name r) (item_category r) (price r) v (date r) (hour r)
    (day_of_week r) (upper_bound r) (lower_bound r) (price_anomaly r).

Definition set_date (v : Z) (r : Row) : Row :=
  mkRow (timestamp r) (location r) (server_id r) (table_number r)
    (item_name r) (item_category r) (price r) (payment_type r) v (hour r)
    (day_of_week r) (upper_bound r) (lower_bound r) (price_anomaly r).

Definition set_hour (v : Z) (r : Row) : Row :=
  mkRow (timestamp r) (location r) (server_id r) (table_number r)
    (item_name r) (item_category r) (price r) (payment_type r) (date r) v
    (day_of_week r) (upper_bound r) (lower_bound r) (price_anomaly r).

Definition set_day_of_week (v : string) (r : Row) : Row :=
  mkRow (timestamp r) (location r) (server_id r) (table_number r)
    (item_name r) (item_category r) (price r) (payment_type r) (date r)
    (hour r) v (upper_bound r) (lower_bound r) (price_anomaly r).

Definition set_bounds (upper lower : float64) (r : Row) : Row :=
  mkRow (timestamp r) (location r) (server_id r) (table_number r)
    (item_name r) (item_category r) (price r) (payment_type r) (date r)
    (hour r) (day_of_week r) upper lower (price_anomaly r).

Definition set_price_anomaly (v : bool) (r : Row) : Row :=
  mkRow (timestamp r) (location r) (server_id r) (table_number r)
    (item_name r) (item_category r) (price r) (payment_type r) (date r)
    (hour r) (day_of_week r) (upper_bound r) (lower_bound r) v.

(** [df[name] = values]: the column is appended when it is new. *)
Definition add_column (name : string) (cols : list string) : list string :=
  if decide (name ∈ cols) then cols else cols ++ [name].

Definition assign (name : string) (f : Row → Row) (df : DataFrame) : DataFrame :=
  {| columns := add_column name (columns df); rows := f <$> rows df |}.

(** *** The [.dt] accessors of a timestamp column *)

Definition ns_per_hour : Z := 3600 * 10 ^ 9.
Definition ns_per_day : Z := 24 * ns_per_hour.

(** [.dt.date], as the number of the day since 1970-01-01. *)
Definition dt_date (ts : Z) : Z := ts `div` ns_per_day.

(** [.dt.hour], 0 to 23. *)
Definition dt_hour (ts : Z) : Z := (ts `div` ns_per_hour) `mod` 24.

Definition weekdays : list string :=
  ["Monday"; "Tuesday"; "Wednesday"; "Thursday"; "Friday"; "Saturday";
   "Sunday"].

(** [.dt.day_name()]: 1970-01-01 was a Thursday. *)
Definition dt_day_name (ts : Z) : string :=
  default "Monday" (weekdays !! Z.to_nat ((dt_date ts + 3) `mod` 7)).

(** *** groupby *)

(** Orders of the grouping keys. *)
Definition str_le (a b : string) : Prop := String.leb a b = true.

Definition pair_le {A B} (RA : relation A) (RB : relation B) : relation (A * B) :=
  λ x y, (RA x.1 y.1 ∧ x.1 ≠ y.1) ∨ (x.1 = y.1 ∧ RB x.2 y.2).

#[global] Instance str_le_dec : RelDecision str_le.
Proof. intros a b. unfold str_le. apply _. Defined.

#[global] Instance pair_le_dec {A B} `{EqDecision A} (RA : relation A) (RB : relation B)
  `{!RelDecision RA, !RelDecision RB} : RelDecision (pair_le RA RB).
Proof. intros x y. unfold pair_le. apply _. Defined.

(** [df.groupby(key)]: one group per distinct non-null key, the keys in
    ascending order, each group holding its rows in table order. *)
Definition group_keys {A K} `{EqDecision K} (R : relation K) `{!RelDecision R}
    (key : A → option K) (rows : list A) : list K :=
  merge_sort R (remove_dups (omap key rows)).

Definition groupby {A K} `{EqDecision K} (R : relation K) `{!RelDecision R}
    (key : A → option K) (rows : list A) : list (K * list A) :=
  (λ k, (k, filter (λ r, key r = Some k) rows)) <$> group_keys R key rows.

(** [sort_values]: the lines in the order [R], lines that [R] does not
    tell apart in the order they had.  numpy's default sort keeps that
    order for up to 16 lines and leaves it open beyond; no property below
    depends on it. *)
Fixpoint insert_sorted {A} (R : relation A) `{!RelDecision R} (x : A) (l : list A)
    : list A :=
  match l with
  | [] => [x]
  | y :: l' => if decide (R x y) then x :: l else y :: insert_sorted R x l'
  end.

Definition sort_values {A} (R : relation A) `{!RelDecision R} (l : list A) : list A :=
  foldr (insert_sorted R) [] l.

(** Lookup by index label. *)
Definition lookup_label {K V} `{EqDecision K} (k : K) (table : list (K * V)) : option V :=
  (λ iv, iv.2.2) <$> list_find (λ kv, kv.1 = k) table.

(** ** utils.py *)

Module utils.

(** *** Loading *)

Inductive Message :=
| MissingEnvironmentVariables (names : list string)
| MissingRequiredColumns (names : gset string).

(** [ValueError] is what the module raises itself; everything the database
    driver or the file system raises is an [ExternalError]. *)
Inductive Exception :=
| ValueError (m : Message)
| ExternalError (what : string).

Definition result (A : Type) : Type := Exception + A.

Inductive LogRecord :=
| INFO_loaded (n : nat)
| ERROR_loading (e : Exception).

(** The process environment and the two data sources. *)
Record World := mkWorld {
  getenv : string → option string;
  read_sql : string → string → result DataFrame;
  read_csv : string → result DataFrame
}.

Definition get_database_connection (w : World) : result string :=
  let db_params :=
    [("user", getenv w "DB_USER"); ("password", getenv w "DB_PASSWORD");
     ("host", getenv w "DB_HOST"); ("port", getenv w "DB_PORT");
     ("database", getenv w "DB_NAME")] in
  let missing_params :=
    omap (λ kv : string * option string,
            match kv.2 with None => Some kv.1 | Some _ => None end) db_params in
  let param k := default "" (lookup_label k db_params ≫= id) in
  match missing_params with
  | _ :: _ => inl (ValueError (MissingEnvironmentVariables missing_params))
  | [] =>
      inr ("postgresql://" +:+ param "user" +:+ ":" +:+ param "password"
           +:+ "@" +:+ param "host" +:+ ":" +:+ param "port" +:+ "/"
           +:+ param "database")
  end.

Definition load_pos_data_from_db (w : World) (query : string) : result DataFrame :=
  match get_database_connection w with
  | inl e => inl e
  | inr engine => read_sql w query engine
  end.

Definition load_pos_data_from_file (w : World) (file_path : string) : result DataFrame :=
  read_csv w file_path.

Definition required_columns : list string :=
  ["timestamp"; "location"; "server_id"; "table_number";
   "item_name"; "item_category"; "price"; "payment_type"].

(** The body of the [try] block. *)
Definition load_and_validate (w : World) (source : string) (from_database : bool)
    : result DataFrame :=
  match (if from_database then load_pos_data_from_db w source
         else load_pos_data_from_file w source) with
  | inl e => inl e
  | inr df =>
      let missing_columns : gset string :=
        list_to_set required_columns ∖ list_to_set (columns df) in
      if decide (missing_columns = ∅) then inr df
      else inl (ValueError (MissingRequiredColumns missing_columns))
  end.

(** [load_pos_data]: the log records it emits and its outcome; a failure is
    logged and raised again unchanged. *)
Definition load_pos_data (w : World) (source : string) (from_database : bool)
    : list LogRecord * result DataFrame :=
  match load_and_validate w source from_database with
  | inr df => ([INFO_loaded (length (rows df))], inr df)
  | inl e => ([ERROR_loading e], inl e)
  end.

(** *** POSDataAnalyzer *)

Abbreviation ref := positive.
Abbreviation heap := (gmap positive DataFrame).

Record POSDataAnalyzer := mkAnalyzer { self_df : ref }.

(** [df.copy()]: a new object with the same contents. *)
Definition copy (df : ref) (h : heap) : option (ref * heap) :=
  d ← h !! df;
  let l := fresh (dom h) in
  Some (l, <[l := d]> h).

(** In-place update of the frame stored at [l]. *)
Definition update (l : ref) (f : DataFrame → DataFrame) (h : heap) : option heap :=
  d ← h !! l; Some (<[l := f d]> h).

Definition assign_date : DataFrame → DataFrame :=
  assign "date" (λ r, set_date (dt_date (timestamp r)) r).

Definition assign_hour : DataFrame → DataFrame :=
  assign "hour" (λ r, set_hour (dt_hour (timestamp r)) r).

Definition assign_day_of_week : DataFrame → DataFrame :=
  assign "day_of_week" (λ r, set_day_of_week (dt_day_name (timestamp r)) r).

Definition fillna_payment_type : DataFrame → DataFrame :=
  assign "payment_type"
    (λ r, set_payment_type (Some (default "UNKNOWN" (payment_type r))) r).

Record PriceStats := mkPriceStats {
  stats_item_name : string;
  stats_mean : float64;
  stats_std : float64;
  stats_upper_bound : float64;
  stats_lower_bound : float64
}.

Section analyzer.
Variable lib : Series.Reductions.

(** [groupby('item_name')['price'].agg(['mean', 'std'])] with the two
    bound columns. *)
Definition price_stats (df : DataFrame) : list PriceStats :=
  (λ kg : string * list Row,
     let prices := price <$> kg.2 in
     let mean := Series.agg_mean lib prices in
     let std := Series.agg_std lib prices in
     {| stats_item_name := kg.1;
        stats_mean := mean;
        stats_std := std;
        stats_upper_bound := Float64.add mean (Float64.mul (Float64.of_Z 3) std);
        stats_lower_bound := Float64.sub mean (Float64.mul (Float64.of_Z 3) std) |})
    <$> groupby str_le (λ r, Some (item_name r)) (rows df).

(** [df.merge(stats[['item_name', 'upper_bound', 'lower_bound']],
    on='item_name', how='left')]: every left row once per matching right
    row, with NaN bounds when there is none. *)
Definition merge_bounds (df : DataFrame) (stats : list PriceStats) : DataFrame :=
  {| columns := columns df ++ ["upper_bound"; "lower_bound"];
     rows :=
       r ← rows df;
       match filter (λ s, stats_item_name s = item_name r) stats with
       | [] => [set_bounds NaN NaN r]
       | ms => (λ s, set_bounds (stats_upper_bound s) (stats_lower_bound s) r) <$> ms
       end |}.

Definition assign_price_anomaly : DataFrame → DataFrame :=
  assign "price_anomaly"
    (λ r, set_price_anomaly
            (Float64.gtb (price r) (upper_bound r)
             || Float64.ltb (price r) (lower_bound r)) r).

(** [_preprocess_data]: four assignments to the frame [self.df] names, a
    merge that binds [self.df] to a new frame, one more assignment. *)
Definition _preprocess_data (self : POSDataAnalyzer) (h : heap)
    : option (POSDataAnalyzer * heap) :=
  h ← update (self_df self) assign_date h;
  h ← update (self_df self) assign_hour h;
  h ← update (self_df self) assign_day_of_week h;
  h ← update (self_df self) fillna_payment_type h;
  d ← h !! self_df self;
  let merged := fresh (dom h) in
  let h := <[merged := merge_bounds d (price_stats d)]> h in
  let self := mkAnalyzer merged in
  h ← update (self_df self) assign_price_anomaly h;
  Some (self, h).

(** [POSDataAnalyzer(df)]. *)
Definition __init__ (df : ref) (h : heap) : option (POSDataAnalyzer * heap) :=
  '(l, h) ← copy df h;
  _preprocess_data (mkAnalyzer l) h.

(** The frame an analyzer built on [df] holds. *)
Definition preprocess (df : DataFrame) : DataFrame :=
  let d := fillna_payment_type (assign_day_of_week (assign_hour (assign_date df))) in
  assign_price_anomaly (merge_bounds d (price_stats d)).

(** *** Aggregators *)

Record TicketStats := mkTicketStats {
  transaction_count : Z;
  total_sales : float64;
  avg_ticket : float64
}.

(** [agg({'price': ['count', 'sum', 'mean']}).round(2)] on one group. *)
Definition agg_price (group : list Row) : TicketStats :=
  let prices := price <$> group in
  {| transaction_count := Series.count prices;
     total_sales := Float64.round 2 (Series.agg_sum lib prices);
     avg_ticket := Float64.round 2 (Series.agg_mean lib prices) |}.

Record ServerMetrics := mkServerMetrics {
  server_ticket :> TicketStats;
  items_sold : Z;
  price_anomalies : Z;
  items_per_transaction : float64
}.

(** Descending, NaN last: the order of
    [sort_values(..., ascending=False)]. *)
Definition descending (x y : float64) : Prop :=
  Float64.isnan y = true ∨ Float64.leb y x = true.

#[global] Instance descending_dec : RelDecision descending.
Proof. intros x y. unfold descending. apply _. Defined.

Definition by_total_sales {K} (a b : K * ServerMetrics) : Prop :=
  descending (total_sales a.2) (total_sales b.2).

#[global] Instance by_total_sales_dec {K} : RelDecision (@by_total_sales K).
Proof. intros x y. unfold by_total_sales. apply _. Defined.

Definition analyze_server_performance (df : DataFrame) (min_transactions : Z)
    : list (string * ServerMetrics) :=
  let server_metrics :=
    (λ kg : string * list Row,
       (kg.1, (agg_price kg.2,
               Z.of_nat (length kg.2),
               Z.of_nat (length (filter (λ r, price_anomaly r = true) kg.2)))))
      <$> groupby str_le server_id (rows df) in
  let server_metrics :=
    filter (λ km, min_transactions ≤ transaction_count km.2.1.1) server_metrics in
  let server_metrics :=
    (λ km : string * (TicketStats * Z * Z),
       (km.1,
        {| server_ticket := km.2.1.1;
           items_sold := km.2.1.2;
           price_anomalies := km.2.2;
           items_per_transaction :=
             Float64.round 2
               (Float64.div (Float64.of_Z km.2.1.2)
                            (Float64.of_Z (transaction_count km.2.1.1))) |}))
      <$> server_metrics in
  sort_values by_total_sales server_metrics.

Record PaymentMetrics := mkPaymentMetrics {
  payment_ticket :> TicketStats;
  sales_percentage : float64
}.

Definition analyze_payment_types (df : DataFrame) : list (string * PaymentMetrics) :=
  let payment_metrics :=
    (λ kg : string * list Row, (kg.1, agg_price kg.2))
      <$> groupby str_le payment_type (rows df) in
  let total := Series.sum lib ((λ km, total_sales km.2) <$> payment_metrics) in
  (λ km : string * TicketStats,
     (km.1,
      {| payment_ticket := km.2;
         sales_percentage :=
           Float64.round 2
             (Float64.mul (Float64.div (total_sales km.2) total)
                          (Float64.of_Z 100)) |}))
    <$> payment_metrics.

(** *** The other reports *)

Record BasicStats := mkBasicStats {
  date_range : option Z * option Z;
  basic_total_sales : float64;
  total_transactions : Z;
  unique_locations : Z;
  unique_servers : Z;
  basic_price_anomalies : Z
}.

(** [min()] and [max()] of a column of dates: NaN ([None]) when it is
    empty. *)
Definition column_min (ds : list Z) : option Z :=
  match ds with [] => None | d :: ds => Some (foldl Z.min d ds) end.

Definition column_max (ds : list Z) : option Z :=
  match ds with [] => None | d :: ds => Some (foldl Z.max d ds) end.

(** The number of rows with a true flag: [sum()] of a boolean column. *)
Definition count_anomalies (group : list Row) : Z :=
  Z.of_nat (length (filter (λ r, price_anomaly r = true) group)).

Definition get_basic_stats (df : DataFrame) : BasicStats :=
  {| date_range := (column_min (date <$> rows df), column_max (date <$> rows df));
     basic_total_sales := Series.sum lib (price <$> rows df);
     total_transactions := Z.of_nat (length (rows df));
     unique_locations := Series.nunique (location <$> rows df);
     unique_servers := Series.nunique (omap server_id (rows df));
     basic_price_anomalies := count_anomalies (rows df) |}.

(** [agg({'price': ['count', 'sum', 'mean'], 'item_name': 'count',
    'server_id': 'nunique'}).round(2)] on one group; a null server is not
    counted. *)
Record SalesStats := mkSalesStats {
  sales_ticket :> TicketStats;
  sales_items_sold : Z;
  active_servers : Z
}.

Definition agg_sales (group : list Row) : SalesStats :=
  {| sales_ticket := agg_price group;
     sales_items_sold := Z.of_nat (length group);
     active_servers := Series.nunique (omap server_id group) |}.

Definition analyze_daily_trends (df : DataFrame) : list (Z * SalesStats) :=
  (λ kg : Z * list Row, (kg.1, agg_sales kg.2))
    <$> groupby Z.le (λ r, Some (date r)) (rows df).

(** The columns keep their two-level names: price count, sum and mean,
    and item_name count. *)
Definition analyze_hourly_patterns (df : DataFrame) : list (Z * (TicketStats * Z)) :=
  (λ kg : Z * list Row, (kg.1, (agg_price kg.2, Z.of_nat (length kg.2))))
    <$> groupby Z.le (λ r, Some (hour r)) (rows df).

(** [quantity_sold], [total_revenue] and [avg_price] are the count, sum
    and mean of the price. *)
Record ItemMetrics := mkItemMetrics {
  item_ticket :> TicketStats;
  item_price_anomalies : Z
}.

Record CategoryMetrics := mkCategoryMetrics {
  category_ticket :> TicketStats;
  unique_items : Z
}.

Definition analyze_menu_performance (df : DataFrame)
    : list (string * ItemMetrics) * list (string * CategoryMetrics) :=
  let item_metrics :=
    (λ kg : string * list Row,
       (kg.1, {| item_ticket := agg_price kg.2;
                 item_price_anomalies := count_anomalies kg.2 |}))
      <$> groupby str_le (λ r, Some (item_name r)) (rows df) in
  let category_metrics :=
    (λ kg : string * list Row,
       (kg.1, {| category_ticket := agg_price kg.2;
                 unique_items := Series.nunique (item_name <$> kg.2) |}))
      <$> groupby str_le (λ r, Some (item_category r)) (rows df) in
  (item_metrics, category_metrics).

Definition analyze_location_performance (df : DataFrame) : list (string * SalesStats) :=
  (λ kg : string * list Row, (kg.1, agg_sales kg.2))
    <$> groupby str_le (λ r, Some (location r)) (rows df).

(** *** The report *)

(** The value stored under a key of the report. *)
Inductive ReportData :=
| BasicData (stats : BasicStats)
| DailyData (table : list (Z * SalesStats))
| HourlyData (table : list (Z * (TicketStats * Z)))
| ServerData (table : list (string * ServerMetrics))
| MenuData (tables : list (string * ItemMetrics) * list (string * CategoryMetrics))
| LocationData (table : list (string * SalesStats))
| PaymentData (table : list (string * PaymentMetrics)).

(** [isinstance(data, pd.DataFrame)]: the statistics are a dict and the
    menu performance is a tuple. *)
Definition is_DataFrame (data : ReportData) : bool :=
  match data with
  | BasicData _ | MenuData _ => false
  | _ => true
  end.

(** [data.to_csv(path)] where [can_write] tells which paths the file
    system accepts: the file is added to those written, or the call
    raises. *)
Definition to_csv (can_write : string → bool) (path : string) (data : ReportData)
    (written : list (string * ReportData)) : result (list (string * ReportData)) :=
  if can_write path then inr (written ++ [(path, data)])
  else inl (ExternalError path).

(** The loop over [report.items()]: the files written when it ends or
    raises, and the exception if it raised. *)
Fixpoint save_report (can_write : string → bool) (output_path : string)
    (items : list (string * ReportData)) (written : list (string * ReportData))
    : list (string * ReportData) * option Exception :=
  match items with
  | [] => (written, None)
  | (name, data) :: items =>
      if is_DataFrame data then
        match to_csv can_write (output_path +:+ "/" +:+ name +:+ ".csv") data written with
        | inr written => save_report can_write output_path items written
        | inl e => (written, Some e)
        end
      else save_report can_write output_path items written
  end.

(** [generate_report(output_path)] on the frame of the analyzer: the files
    written and the report, a dict in the order of its keys, or the
    exception of a write.  An empty path counts as no path. *)
Definition generate_report (df : DataFrame) (output_path : option string)
    (can_write : string → bool)
    : list (string * ReportData) * result (list (string * ReportData)) :=
  let report :=
    [("basic_stats", BasicData (get_basic_stats df));
     ("daily_trends", DailyData (analyze_daily_trends df));
     ("hourly_patterns", HourlyData (analyze_hourly_patterns df));
     ("server_performance", ServerData (analyze_server_performance df 10));
     ("menu_performance", MenuData (analyze_menu_performance df));
     ("location_performance", LocationData (analyze_location_performance df));
     ("payment_analysis", PaymentData (analyze_payment_types df))] in
  match output_path with
  | Some path =>
      if decide (path = "") then ([], inr report)
      else
        match save_report can_write path report [] with
        | (written, None) => (written, inr report)
        | (written, Some e) => (written, inl e)
        end
  | None => ([], inr report)
  end.

End analyzer.

End utils.

(** ** heatmap.py *)

Module heatmap.

Definition expected_hours : list Z := seqZ 11 12.

(** [entries.pivot(index, columns, values)]: one line per index label and
    one cell per column label, both ascending; NaN where no entry exists,
    and an error ([None]) when two entries share their labels. *)
Definition pivot (entries : list ((string * Z) * float64))
    : option (list (string * list (Z * float64))) :=
  if decide (NoDup entries.*1) then
    let index := merge_sort str_le (remove_dups entries.*1.*1) in
    let cols := merge_sort Z.le (remove_dups entries.*1.*2) in
    Some ((λ l, (l, (λ c, (c, default NaN (lookup_label (l, c) entries))) <$> cols))
            <$> index)
  else None.

(** [create_location_hour_heatmap(analyzer)], on the frame [analyzer.df]:
    the table [heatmap_data] that is drawn.  [None] stands for an
    exception: of the label lookup, of the pivot, or of the assignment of
    [avg_orders] when [hourly_totals] has no rows, where the row-wise
    [apply] yields a frame and not a column. *)
Definition create_location_hour_heatmap (df : DataFrame)
    : option (list (string * list (Z * float64))) :=
  let location_days : list (string * Z) :=
    (λ kg : string * list Row, (kg.1, Series.nunique (date <$> kg.2)))
      <$> groupby str_le (λ r, Some (location r)) (rows df) in
  let hourly_totals : list ((string * Z) * Z) :=
    (λ kg : (string * Z) * list Row, (kg.1, Z.of_nat (length kg.2)))
      <$> groupby (pair_le str_le Z.le) (λ r, Some (location r, hour r)) (rows df) in
  let all_combinations : list (string * Z) :=
    l ← location_days.*1; h ← expected_hours; [(l, h)] in
  let hourly_totals : list ((string * Z) * Z) :=
    (λ k, (k, default 0 (lookup_label k hourly_totals))) <$> all_combinations in
  avg_orders ←
    (if decide (hourly_totals = []) then None
     else
       mapM (λ row : (string * Z) * Z,
               days ← lookup_label row.1.1 location_days;
               Some (row.1,
                     Float64.round 1
                       (Float64.div (Float64.of_Z row.2) (Float64.of_Z days))))
            hourly_totals);
  pivot avg_orders.

(** A cell of the heatmap. *)
Definition cell (heatmap_data : list (string * list (Z * float64)))
    (l : string) (h : Z) : option float64 :=
  lookup_label l heatmap_data ≫= lookup_label h.

End heatmap.

(** ** ave_ticket_by_day.py *)

Module ave_ticket_by_day.

(** A line of the summary.  After the reindex the three columns are
    float columns, the order count included. *)
Record DayStats := mkDayStats {
  avg_ticket : float64;
  num_orders : float64;
  total_revenue : float64
}.

(** [analyze_daily_average_tickets(df)]: the table [daily_avg] that is
    printed and drawn. *)
Definition analyze_daily_average_tickets (lib : Series.Reductions) (df : DataFrame)
    : list (string * DayStats) :=
  let daily_avg : list (string * (float64 * Z * float64)) :=
    (λ kg : string * list Row,
       let prices := price <$> kg.2 in
       (kg.1, (Float64.round 2 (Series.agg_mean lib prices),
               Series.count prices,
               Float64.round 2 (Series.agg_sum lib prices))))
      <$> groupby str_le (λ r, Some (dt_day_name (timestamp r))) (rows df) in
  (λ day,
     (day,
      match lookup_label day daily_avg with
      | Some s => mkDayStats s.1.1 (Float64.of_Z s.1.2) s.2
      | None => mkDayStats NaN NaN NaN
      end))
    <$> weekdays.

End ave_ticket_by_day.

(** ** each_day_hourly.py *)

Module each_day_hourly.

Definition days_order : list string :=
  ["Monday"; "Tuesday"; "Wednesday"; "Thursday"; "Friday"; "Saturday";
   "Sunday"].

(** What the validation loop prints for a weekday: its orders, the number
    of its dates and their quotient. *)
Record DayCheck := mkDayCheck {
  day_orders : Z;
  day_count : Z;
  orders_per_day : float64
}.

(** A lookup [series[label]] that does not find its label raises a
    [KeyError]; the assignment of a frame to one column raises a
    [ValueError]. *)
Inductive Exception :=
| KeyError (label : string)
| ValueError.

Definition getitem {V} (label : string) (series : list (string * V)) : Exception + V :=
  match lookup_label label series with
  | Some v => inr v
  | None => inl (KeyError label)
  end.

(** The rows of [hourly_volume] with their [avg_orders], row after row. *)
Fixpoint with_avg_orders (days_count : list (string * Z))
    (hourly_volume : list ((string * Z) * Z))
    : Exception + list ((string * Z) * (Z * float64)) :=
  match hourly_volume with
  | [] => inr []
  | (key, order_count) :: rest =>
      match getitem key.1 days_count with
      | inl e => inl e
      | inr days =>
          match with_avg_orders days_count rest with
          | inl e => inl e
          | inr rest =>
              inr ((key, (order_count,
                          Float64.round 1
                            (Float64.div (Float64.of_Z order_count)
                                         (Float64.of_Z days))))
                   :: rest)
          end
      end
  end.

(** The validation loop over the weekdays, day after day. *)
Fixpoint validation (days_count : list (string * Z)) (rows : list Row)
    (days : list string) : Exception + list (string * DayCheck) :=
  match days with
  | [] => inr []
  | day :: days =>
      match getitem day days_count with
      | inl e => inl e
      | inr day_count =>
          let day_orders :=
            Z.of_nat (length (filter (λ r, day_of_week r = day) rows)) in
          match validation days_count rows days with
          | inl e => inl e
          | inr rest =>
              inr ((day, mkDayCheck day_orders day_count
                           (Float64.div (Float64.of_Z day_orders)
                                        (Float64.of_Z day_count)))
                   :: rest)
          end
      end
  end.

(** What [analyze_daily_hourly_patterns] computes once the three columns
    are in the table: [hourly_volume] and the validation statistics it
    prints, or an exception.  Drawing is not modelled.  When
    [hourly_volume] has no rows the row-wise [apply] yields a frame and
    not a column, and the assignment of [avg_orders] raises. *)
Definition hourly_volume_by_weekday (d : DataFrame)
    : Exception + list ((string * Z) * (Z * float64)) * list (string * DayCheck) :=
  let days_count : list (string * Z) :=
    (λ kg : string * list Row, (kg.1, Series.nunique (date <$> kg.2)))
      <$> groupby str_le (λ r, Some (day_of_week r)) (rows d) in
  let hourly_volume : list ((string * Z) * Z) :=
    (λ kg : (string * Z) * list Row, (kg.1, Z.of_nat (length kg.2)))
      <$> groupby (pair_le str_le Z.le) (λ r, Some (day_of_week r, hour r)) (rows d) in
  if decide (hourly_volume = []) then inl ValueError
  else
    match with_avg_orders days_count hourly_volume with
    | inl e => inl e
    | inr hourly_volume =>
        match validation days_count (rows d) days_order with
        | inl e => inl e
        | inr checks => inr (hourly_volume, checks)
        end
    end.

(** [analyze_daily_hourly_patterns(df)] on the frame stored at [df]: the
    three columns are assigned to that frame itself. *)
Definition analyze_daily_hourly_patterns (df : utils.ref) (h : utils.heap)
    : option (utils.heap *
              (Exception +
               list ((string * Z) * (Z * float64)) * list (string * DayCheck))) :=
  h ← utils.update df utils.assign_day_of_week h;
  h ← utils.update df utils.assign_hour h;
  h ← utils.update df utils.assign_date h;
  d ← h !! df;
  Some (h, hourly_volume_by_weekday d).

End each_day_hourly.

(** ** Sample data *)

Module sample.

(** Reductions for running the model: the sum from left to right, the
    mean as that sum over the count, and the variance by the running
    update of Welford. *)
Definition sum_left (xs : list float64) : float64 :=
  foldl Float64.add Float64.zero (Series.dropna xs).

Definition mean_left (xs : list float64) : float64 :=
  Float64.div (sum_left xs) (Float64.of_Z (Series.count xs)).

Definition welford_step (st : Z * float64 * float64) (x : float64)
    : Z * float64 * float64 :=
  let n := st.1.1 + 1 in
  let mean :=
    Float64.add st.1.2 (Float64.div (Float64.sub x st.1.2) (Float64.of_Z n)) in
  (n, mean, Float64.add st.2 (Float64.mul (Float64.sub x mean) (Float64.sub x st.1.2))).

Definition var_welford (xs : list float64) : float64 :=
  let st := foldl welford_step (0, Float64.zero, Float64.zero) (Series.dropna xs) in
  Float64.div st.2 (Float64.of_Z (st.1.1 - 1)).

Definition lib : Series.Reductions :=
  {| Series.nansum := sum_left;
     Series.group_sum := sum_left;
     Series.group_mean := mean_left;
     Series.group_var := var_welford |}.

Definition hours (d h : Z) : Z := (d * 24 + h) * ns_per_hour.

(** A loaded row: the derived cells are still empty. *)
Definition raw (ts : Z) (loc : string) (server : option string) (item : string)
    (p : float64) (pay : option string) : Row :=
  mkRow ts loc server (Some "T1") item "Main" p pay 0 0 "" NaN NaN false.

Definition loaded (rs : list Row) : DataFrame :=
  {| columns := utils.required_columns; rows := rs |}.

Definition table1 : DataFrame :=
  loaded
    [raw (hours 19723 12) "Downtown" (Some "S001") "Burger" (Fin (1299 # 100)) (Some "CASH");
     raw (hours 19723 13) "Downtown" (Some "S002") "Burger" (Fin (1299 # 100)) None;
     raw (hours 19724 9) "Downtown" (Some "S001") "Soda" (Fin (299 # 100)) (Some "CREDIT");
     raw (hours 19724 12) "Mall" None "Burger" (Fin (1299 # 100)) (Some "CREDIT");
     raw (hours 19725 18) "Mall" (Some "S002") "Burger" (Fin (1299 # 10)) (Some "CASH")].


(** A file that lacks the price and payment columns, and no database. *)
Definition incomplete : DataFrame :=
  {| columns := ["timestamp"; "location"; "server_id"; "table_number";
                 "item_name"; "item_category"; "notes"];
     rows := [] |}.

Definition world : utils.World :=
  {| utils.getenv := λ _, None;
     utils.read_sql := λ _ _, inl (utils.ExternalError "connection refused");
     utils.read_csv := λ path,
       if decide (path = "incomplete.csv") then inr incomplete else inr table1 |}.

(** One lunch order on a Monday, and one 9 o'clock record on the Tuesday. *)
Definition lunch : Row :=
  raw (hours 19723 12) "Downtown" (Some "S001") "Burger" (Fin (1299 # 100)) (Some "CASH").

Definition early : Row :=
  raw (hours 19724 9) "Downtown" (Some "S001") "Soda" (Fin (299 # 100)) (Some "CASH").


(** One sale of one dollar for each of three payment types. *)
Definition three_ways : DataFrame :=
  loaded
    [raw (hours 19723 12) "Downtown" (Some "S001") "Soda" (Fin 1) (Some "CASH");
     raw (hours 19723 13) "Downtown" (Some "S001") "Soda" (Fin 1) (Some "CREDIT");
     raw (hours 19723 14) "Downtown" (Some "S001") "Soda" (Fin 1) (Some "DEBIT")].

(** A week of lunches from Monday 2024-01-01 on, with a second Monday and
    an early Monday order. *)
Definition week : DataFrame :=
  loaded
    (((λ d, raw (hours d 12) "Downtown" (Some "S001") "Burger" (Fin (1299 # 100)) (Some "CASH"))
        <$> seqZ 19723 8)
     ++ [raw (hours 19723 9) "Mall" None "Soda" (Fin (299 # 100)) None]).

(** A file system that refuses one file. *)
Definition refuses (path : string) : string → bool :=
  λ p, bool_decide (p ≠ path).

End sample.

(** ** Vocabulary of the properties *)

(** The place of a number on the line of [float64]: the infinities at the
    ends, the zeros in the middle, a finite number by its sign, exponent
    and mantissa. *)
Definition float_rank (x : float64) : Z * Z * Z :=
  match x with
  | S754_infinity true => (-2, 0, 0)
  | S754_finite true m e => (-1, - e, - Zpos m)
  | S754_zero _ | S754_nan => (0, 0, 0)
  | S754_finite false m e => (1, e, Zpos m)
  | S754_infinity false => (2, 0, 0)
  end.

Definition rank_le (a b : Z * Z * Z) : Prop :=
  a.1.1 < b.1.1 ∨ (a.1.1 = b.1.1 ∧ (a.1.2 < b.1.2 ∨ (a.1.2 = b.1.2 ∧ a.2 ≤ b.2))).

(** The prices of the rows of [df] that carry the item name [item]. *)
Definition item_prices (df : DataFrame) (item : string) : list float64 :=
  price <$> filter (λ r, item_name r = item) (rows df).

(** The band (lower, upper) of an item: mean - 3 std and mean + 3 std of its
    prices in [df], with the sample standard deviation. *)
Definition band (lib : Series.Reductions) (df : DataFrame) (item : string)
    : float64 * float64 :=
  let mean := Series.agg_mean lib (item_prices df item) in
  let std := Series.agg_std lib (item_prices df item) in
  (Float64.sub mean (Float64.mul (Float64.of_Z 3) std),
   Float64.add mean (Float64.mul (Float64.of_Z 3) std)).

(** [p] lies strictly outside the band: above its upper end or below its
    lower end. *)
Definition strictly_outside (p : float64) (b : float64 * float64) : bool :=
  Float64.gtb p b.2 || Float64.ltb p b.1.

(** The transaction count of a server: its rows that carry a price. *)
Definition server_transactions (df : DataFrame) (s : string) : Z :=
  Series.count (price <$> filter (λ r, server_id r = Some s) (rows df)).

(** The four assignments before the merge, on one row. *)
Definition timed (r : Row) : Row :=
  set_payment_type (Some (default "UNKNOWN" (payment_type r)))
    (set_day_of_week (dt_day_name (timestamp r))
       (set_hour (dt_hour (timestamp r)) (set_date (dt_date (timestamp r)) r))).

(** Preprocessing, on one row of the table [df]. *)
Definition enriched (lib : Series.Reductions) (df : DataFrame) (r : Row) : Row :=
  let b := band lib df (item_name r) in
  set_price_anomaly (strictly_outside (price r) b) (set_bounds b.2 b.1 (timed r)).

(** *** The heatmap *)

(** Orders of a location in an hour of the day, and the number of distinct
    dates on which the location has a record, in the table that is given
    to preprocessing. *)
Definition orders (df : DataFrame) (l : string) (h : Z) : Z :=
  Z.of_nat (length (filter (λ r, location r = l ∧ dt_hour (timestamp r) = h) (rows df))).

Definition open_days (df : DataFrame) (l : string) : Z :=
  Series.nunique ((λ r, dt_date (timestamp r)) <$> filter (λ r, location r = l) (rows df)).

(** The same two numbers read off the [hour] and [date] columns of an
    analyzer's table. *)
Definition bucket (t : DataFrame) (l : string) (h : Z) : Z :=
  Z.of_nat (length (filter (λ r, location r = l ∧ hour r = h) (rows t))).

Definition days_at (t : DataFrame) (l : string) : Z :=
  Series.nunique (date <$> filter (λ r, location r = l) (rows t)).

Definition locations (t : DataFrame) : list string :=
  group_keys str_le (λ r, Some (location r)) (rows t).

(** The value the heatmap shows for a count of orders and a number of
    days. *)
Definition average_orders (n days : Z) : float64 :=
  Float64.round 1 (Float64.div (Float64.of_Z n) (Float64.of_Z days)).

(** *** The summary of the servers *)

(** The total sales of a server as the summary shows them: the sum of its
    prices, to two decimals. *)
Definition server_sales (lib : Series.Reductions) (df : DataFrame) (s : string) : float64 :=
  Float64.round 2
    (Series.agg_sum lib (price <$> filter (λ r, server_id r = Some s) (rows df))).

(** *** The payment-type distribution *)

(** The sum of the [sales_percentage] column, term by term. *)
Definition percentage_total (pm : list (string * utils.PaymentMetrics)) : float64 :=
  foldl Float64.add Float64.zero
    ((λ km : string * utils.PaymentMetrics, utils.sales_percentage km.2) <$> pm).


(** *** Counts *)

(** The sum of a column of counts. *)
Definition Ztotal (zs : list Z) : Z := foldr Z.add 0 zs.

(** The number of rows that carry a price. *)
Definition priced (rs : list Row) : Z := Series.count (price <$> rs).

(** *** The report files *)

Definition csv_path (output_path name : string) : string :=
  output_path +:+ "/" +:+ name +:+ ".csv".

(** The files of the items of a report that are tables, in the order of
    the items. *)
Definition csv_files (output_path : string) (items : list (string * utils.ReportData))
    : list (string * utils.ReportData) :=
  (λ it : string * utils.ReportData, (csv_path output_path it.1, it.2))
    <$> filter (λ it, utils.is_DataFrame it.2 = true) items.

(** The names of the five sections that are written. *)
Definition written_sections : list string :=
  ["daily_trends"; "hourly_patterns"; "server_performance";
   "location_performance"; "payment_analysis"].

(** *** Weekdays and hours *)

(** The table after the three assignments of [each_day_hourly.py]. *)
Definition with_time_columns (df : DataFrame) : DataFrame :=
  utils.assign_date (utils.assign_hour (utils.assign_day_of_week df)).

(** Orders of a weekday, of a weekday in an hour of the day, and the
    number of distinct dates of a weekday, in a table as it was loaded. *)
Definition weekday_orders (df : DataFrame) (day : string) : Z :=
  Z.of_nat (length (filter (λ r, dt_day_name (timestamp r) = day) (rows df))).

Definition weekday_hour_orders (df : DataFrame) (day : string) (h : Z) : Z :=
  Z.of_nat (length (filter (λ r, dt_day_name (timestamp r) = day ∧
                                 dt_hour (timestamp r) = h) (rows df))).

Definition weekday_dates (df : DataFrame) (day : string) : Z :=
  Series.nunique ((λ r, dt_date (timestamp r))
                    <$> filter (λ r, dt_day_name (timestamp r) = day) (rows df)).

(** The same numbers read off the [day_of_week], [hour] and [date]
    columns. *)
Definition day_bucket (t : DataFrame) (day : string) : Z :=
  Z.of_nat (length (filter (λ r, day_of_week r = day) (rows t))).

Definition day_hour_bucket (t : DataFrame) (day : string) (h : Z) : Z :=
  Z.of_nat (length (filter (λ r, day_of_week r = day ∧ hour r = h) (rows t))).

Definition day_dates (t : DataFrame) (day : string) : Z :=
  Series.nunique (date <$> filter (λ r, day_of_week r = day) (rows t)).

(** ** The model at work *)

Example round_half_even_1 :
  Float64.round 1 (Fin (1 # 4)) = Fin (1 # 5) ∧
  Float64.round 1 (Fin (3 # 4)) = Fin (4 # 5) ∧
  Float64.round 2 (Fin (-(1 # 3))) = Fin (-(33 # 100))%Q ∧
  Float64.rint (Fin (-(3 # 10))) = S754_zero true.
Proof. repeat split; vm_compute; reflexivity. Qed.

(** The double of 12.99, and what eight of them add up to from left to
    right: 103.91999999999999, an eighth of which is 12.989999999999998. *)
Example binary_rounding :
  Fin (1299 # 100) = S754_finite false 7312719894942843 (-49) ∧
  sample.mean_left (replicate 8 (Fin (1299 # 100)))
    = S754_finite false 7312719894942842 (-49) ∧
  sample.var_welford (replicate 8 (Fin (1299 # 100))) = S754_zero false ∧
  Float64.add (Fin (1 # 10)) (Fin (2 # 10)) ≠ Fin (3 # 10) ∧
  Float64.add (Float64.of_Z (10 ^ 308)) (Float64.of_Z (10 ^ 308)) = Float64.PInf.
Proof. repeat split; try (vm_compute; reflexivity). vm_compute. discriminate. Qed.

Example mean_skips_nan :
  Series.agg_mean sample.lib [Fin 1; NaN; Fin 2] = Fin (3 # 2) ∧
  Series.agg_var sample.lib [Fin 1; NaN] = NaN ∧
  Series.agg_var sample.lib [Fin 1; Fin 3] = Fin 2 ∧
  Series.agg_sum sample.lib [NaN] = Fin 0.
Proof. repeat split; vm_compute; reflexivity. Qed.

Example dt_sample :
  let ts := (19727 * 24 + 13) * ns_per_hour + 59 in
  dt_date ts = 19727 ∧ dt_hour ts = 13 ∧ dt_day_name ts = "Friday".
Proof. repeat split; reflexivity. Qed.

(** ** NaN and the infinities *)

Section float_special.
Import Float64.

Lemma add_nan_r (x : float64) : add x NaN = NaN.
Proof. by destruct x. Qed.

Lemma sub_nan_r (x : float64) : sub x NaN = NaN.
Proof. by destruct x. Qed.

Lemma mul_nan_r (x : float64) : mul x NaN = NaN.
Proof. by destruct x. Qed.

Lemma sqrt_nan : sqrt NaN = NaN.
Proof. done. Qed.

Lemma ltb_nan_l (x : float64) : ltb NaN x = false.
Proof. done. Qed.

Lemma ltb_nan_r (x : float64) : ltb x NaN = false.
Proof. by destruct x. Qed.




End float_special.

(** ** Order of float64 *)

Section float_order.
Import Float64.

Lemma leb_rank (x y : float64) :
  isnan x = false → isnan y = false →
  leb x y = true ↔ rank_le (float_rank x) (float_rank y).
Proof.
  unfold leb, SFleb, rank_le.
  destruct x as [sx|sx| |sx mx ex], y as [sy|sy| |sy my ey]; try done; intros _ _;
    try destruct sx; try destruct sy; cbn; try (split; [intros; lia|done]);
    try (split; [done|intros; lia]).
  - change (Pos.compare_cont Eq mx my) with (Pos.compare mx my).
    destruct (Z.compare_spec ex ey), (Pos.compare_spec mx my); cbn;
      split; first [done|intros; lia].
  - change (Pos.compare_cont Eq mx my) with (Pos.compare mx my).
    destruct (Z.compare_spec ex ey), (Pos.compare_spec mx my); cbn;
      split; first [done|intros; lia].
Qed.

Lemma leb_not_nan (x y : float64) :
  leb x y = true → isnan x = false ∧ isnan y = false.
Proof. by destruct x, y. Qed.

Lemma leb_trans (x y z : float64) :
  leb x y = true → leb y z = true → leb x z = true.
Proof.
  intros Hxy Hyz.
  destruct (leb_not_nan _ _ Hxy) as [Hx Hy], (leb_not_nan _ _ Hyz) as [_ Hz].
  apply leb_rank in Hxy, Hyz; try done. apply leb_rank; try done.
  unfold rank_le in *. lia.
Qed.

Lemma leb_total (x y : float64) :
  isnan x = false → isnan y = false → leb x y = true ∨ leb y x = true.
Proof.
  intros Hx Hy. rewrite !leb_rank by done. unfold rank_le.
  destruct (float_rank x) as [[a b] c], (float_rank y) as [[a' b'] c']. cbn. lia.
Qed.

End float_order.

(** ** The conversion of a positive integer *)

Section float_of_Z.
Import Float64.

Lemma digits2_pos_log2 (p : positive) : Zpos (digits2_pos p) = Z.log2 (Zpos p) + 1.
Proof.
  assert (Hsize : ∀ q, digits2_pos q = Pos.size q) by (induction q; cbn; congruence).
  rewrite Hsize. destruct p; cbn; lia.
Qed.

Lemma shr_m_record_of_loc (m : Z) (l : SpecFloat.location) : shr_m (shr_record_of_loc m l) = m.
Proof. by destruct l as [|[]]. Qed.

Lemma shr_m_shr_1 (r : shr_record) : 0 ≤ shr_m r → shr_m (shr_1 r) = shr_m r `div` 2.
Proof.
  destruct r as [m r s]. cbn [shr_m]. intros Hm.
  rewrite <- Z.div2_div. by destruct m as [|[]|].
Qed.

Lemma shr_m_iter (k : positive) (r : shr_record) :
  0 ≤ shr_m r → shr_m (SpecFloat.iter_pos shr_1 k r) = shr_m r `div` 2 ^ Zpos k.
Proof.
  revert r. induction k as [k IH|k IH|]; intros r Hr; cbn [SpecFloat.iter_pos].
  - assert (0 ≤ shr_m (shr_1 r)) by (rewrite shr_m_shr_1 by done; by apply Z.div_pos).
    assert (0 ≤ shr_m (SpecFloat.iter_pos shr_1 k (shr_1 r)))
      by (rewrite IH by done; apply Z.div_pos; lia).
    rewrite !IH, shr_m_shr_1 by done.
    rewrite !Z.div_div by lia. f_equal.
    replace (Z.pos k~1) with (1 + Z.pos k + Z.pos k) by lia.
    rewrite !Z.pow_add_r by lia. lia.
  - assert (0 ≤ shr_m (SpecFloat.iter_pos shr_1 k r))
      by (rewrite IH by done; apply Z.div_pos; lia).
    rewrite !IH by done. rewrite Z.div_div by lia. f_equal.
    replace (Z.pos k~0) with (Z.pos k + Z.pos k) by lia.
    by rewrite Z.pow_add_r by lia.
  - rewrite shr_m_shr_1 by done. done.
Qed.

(** Rounding a positive mantissa to 53 bits leaves a positive mantissa
    when the exponent is not below the least one. *)
Lemma shr_fexp_pos (m e : Z) (l : SpecFloat.location) :
  0 < m → emin prec emax ≤ e →
  0 < shr_m (shr_fexp prec emax m e l).1 ∧ emin prec emax ≤ (shr_fexp prec emax m e l).2.
Proof.
  intros Hm He. unfold shr_fexp, shr, fexp.
  destruct (Z.max _ _ - e) as [|k|k] eqn:Hk; cbn [fst snd];
    rewrite ?shr_m_record_of_loc; try done.
  rewrite shr_m_iter by (rewrite shr_m_record_of_loc; lia).
  rewrite shr_m_record_of_loc. split; [|lia].
  destruct m as [|p|p]; try done. cbn [Zdigits2] in Hk.
  rewrite digits2_pos_log2 in Hk.
  apply Z.div_str_pos. split; [lia|].
  transitivity (2 ^ Z.log2 (Zpos p)); [|by apply Z.log2_spec].
  apply Z.pow_le_mono_r; [lia|]. unfold prec in *. lia.
Qed.

Lemma binary_round_aux_pos (s : bool) (m e : Z) (l : SpecFloat.location) :
  0 < m → emin prec emax ≤ e →
  isnan (binary_round_aux prec emax s m e l) = false ∧
  iszero (binary_round_aux prec emax s m e l) = false.
Proof.
  intros Hm He. unfold binary_round_aux.
  destruct (shr_fexp_pos m e l Hm He) as [Hm1 He1].
  destruct (shr_fexp prec emax m e l) as [mrs1 e1]. cbn [fst snd] in Hm1, He1.
  assert (Hm2 : 0 < round_nearest_even (shr_m mrs1) (loc_of_shr_record mrs1)).
  { unfold round_nearest_even.
    destruct (loc_of_shr_record mrs1) as [|[]]; try case_match; lia. }
  destruct (shr_fexp_pos _ e1 loc_Exact Hm2 He1) as [Hm3 _].
  destruct (shr_fexp prec emax _ e1 loc_Exact) as [mrs2 e2]. cbn [fst] in Hm3.
  destruct (shr_m mrs2); try done. by case_match.
Qed.

Lemma of_Z_pos (z : Z) :
  0 < z → isnan (of_Z z) = false ∧ iszero (of_Z z) = false ∧ ltb (of_Z z) zero = false.
Proof.
  intros Hz. destruct z as [|p|p]; try done.
  unfold of_Z, binary_normalize, binary_round.
  destruct (shl_align p 0 _) as [mz ez] eqn:Hal.
  assert (He : emin prec emax ≤ ez).
  { unfold shl_align in Hal. destruct (fexp _ _ _ - 0) eqn:Hd; simplify_eq; try done.
    unfold fexp. lia. }
  destruct (binary_round_aux_pos false (Zpos mz) ez loc_Exact) as [Hnan Hzero]; [done..|].
  split; [done|]. split; [done|].
  revert Hnan Hzero. unfold binary_round_aux.
  destruct (shr_fexp prec emax (Zpos mz) ez loc_Exact) as [mrs1 e1].
  destruct (shr_fexp prec emax _ e1 loc_Exact) as [mrs2 e2].
  destruct (shr_m mrs2); try done. by case_match.
Qed.

(** No order divided by a positive number of days is the average 0.0. *)
Lemma div_zero_by_positive (days : Z) :
  0 < days → div (of_Z 0) (of_Z days) = zero.
Proof.
  intros Hdays. destruct (of_Z_pos days Hdays) as (Hnan & Hzero & Hsign).
  change (of_Z 0) with zero. destruct (of_Z days) as [|[]| |[] m e]; done.
Qed.

End float_of_Z.
(** ** Tables indexed by label *)

Section labels.
Context {K V : Type} `{EqDecision K}.

Lemma lookup_label_cons (k : K) (kv : K * V) (table : list (K * V)) :
  lookup_label k (kv :: table) =
    if decide (kv.1 = k) then Some kv.2 else lookup_label k table.
Proof.
  unfold lookup_label. simpl. case_decide; [done|].
  destruct (list_find _ table) as [[i x]|]; done.
Qed.

Lemma lookup_label_keyed (f : K → V) (ks : list K) (k : K) :
  lookup_label k ((λ x, (x, f x)) <$> ks) =
    if decide (k ∈ ks) then Some (f k) else None.
Proof.
  induction ks as [|x ks IH]; [done|].
  rewrite fmap_cons, lookup_label_cons. cbn [fst snd].
  destruct (decide (x = k)) as [->|Hne].
  - rewrite decide_True; [done|]. apply elem_of_cons; auto.
  - rewrite IH. repeat case_decide; try done.
    + exfalso. apply H0. apply elem_of_cons; auto.
    + apply elem_of_cons in H0 as [?|?]; congruence.
Qed.

Lemma lookup_label_Some_elem_of (k : K) (v : V) (table : list (K * V)) :
  lookup_label k table = Some v → (k, v) ∈ table.
Proof.
  induction table as [|[k' v'] table IH]; [done|].
  rewrite lookup_label_cons. simpl. case_decide.
  - intros [= ->]. subst. apply elem_of_cons; auto.
  - intros. apply elem_of_cons; auto.
Qed.

Lemma lookup_label_None (k : K) (table : list (K * V)) :
  lookup_label k table = None ↔ k ∉ table.*1.
Proof.
  induction table as [|[k' v'] table IH]; simpl.
  { split; [intros _; apply not_elem_of_nil|done]. }
  rewrite lookup_label_cons, not_elem_of_cons. simpl. case_decide.
  - split; [done|]. intros [? _]. congruence.
  - rewrite IH. split; [intros; split; [congruence|done]|tauto].
Qed.

End labels.

(** ** groupby *)

Section groupby.
Context {A K : Type} `{EqDecision K} (R : relation K) `{!RelDecision R}.
Implicit Types (key : A → option K) (rows : list A).

Lemma elem_of_group_keys key rows (k : K) :
  k ∈ group_keys R key rows ↔ ∃ r, r ∈ rows ∧ key r = Some k.
Proof.
  unfold group_keys.
  rewrite merge_sort_Permutation, elem_of_remove_dups, list_elem_of_omap.
  done.
Qed.

Lemma NoDup_group_keys key rows : NoDup (group_keys R key rows).
Proof.
  unfold group_keys. rewrite merge_sort_Permutation. apply NoDup_remove_dups.
Qed.

Lemma groupby_keys key rows : (groupby R key rows).*1 = group_keys R key rows.
Proof.
  unfold groupby. rewrite <- list_fmap_compose.
  rewrite <- (list_fmap_id (group_keys R key rows)) at 2.
  by apply list_fmap_ext.
Qed.

(** An aggregate of the groups, as a table indexed by the keys. *)
Lemma agg_groupby {V} (f : K → list A → V) key rows :
  (λ kg : K * list A, (kg.1, f kg.1 kg.2)) <$> groupby R key rows =
  (λ k, (k, f k (filter (λ r, key r = Some k) rows))) <$> group_keys R key rows.
Proof. unfold groupby. by rewrite <- list_fmap_compose. Qed.

End groupby.

Lemma keys_of_aggregate {A K V} `{EqDecision K} (R : relation K) `{!RelDecision R}
    (F : K * list A → K * V) (key : A → option K) (rs : list A) :
  (∀ kg, (F kg).1 = kg.1) →
  (F <$> groupby R key rs).*1 = group_keys R key rs.
Proof.
  intros HF. rewrite <- list_fmap_compose, <- (groupby_keys R key rs).
  apply list_fmap_ext. intros i kg Hi. apply HF.
Qed.

Lemma mapM_keyed {A B} (f : A → option B) (g : A → B) (l : list A) :
  (∀ x, x ∈ l → f x = Some (g x)) → mapM f l = Some (g <$> l).
Proof.
  intros Hf. apply mapM_Some, Forall2_fmap_r, Forall_Forall2_diag.
  by apply Forall_forall.
Qed.

Lemma keyed_keys {K V} (f : K → V) (ks : list K) :
  ((λ k, (k, f k)) <$> ks).*1 = ks.
Proof.
  rewrite <- list_fmap_compose. rewrite <- (list_fmap_id ks) at 2.
  by apply list_fmap_ext.
Qed.


(** ** sort_values *)

Section sort_values.
Context {A} (R : relation A) `{!RelDecision R}.

Lemma insert_sorted_Permutation (x : A) (l : list A) : insert_sorted R x l ≡ₚ x :: l.
Proof.
  induction l as [|y l IH]; [done|]. cbn. case_decide; [done|].
  rewrite IH. apply Permutation_swap.
Qed.

Lemma sort_values_Permutation (l : list A) : sort_values R l ≡ₚ l.
Proof.
  induction l as [|x l IH]; [done|]. unfold sort_values in *. cbn.
  by rewrite insert_sorted_Permutation, IH.
Qed.

Lemma StronglySorted_insert_sorted `{!Total R, !Transitive R} (x : A) (l : list A) :
  StronglySorted R l → StronglySorted R (insert_sorted R x l).
Proof.
  induction 1 as [|y l Hl IH Hy]; cbn; [by repeat constructor|].
  case_decide as Hxy.
  - constructor; [by constructor|]. constructor; [done|].
    eapply Forall_impl; [exact Hy|]. intros z Hz. by transitivity y.
  - constructor; [done|]. rewrite insert_sorted_Permutation.
    constructor; [|done]. by destruct (total R x y).
Qed.

Lemma StronglySorted_sort_values `{!Total R, !Transitive R} (l : list A) :
  StronglySorted R (sort_values R l).
Proof.
  induction l as [|x l IH]; [constructor|]. by apply StronglySorted_insert_sorted.
Qed.

End sort_values.

(** ** Lists *)

Lemma filter_fmap_comm {A B} (f : A → B) (P : B → Prop) `{!∀ x, Decision (P x)}
    (l : list A) :
  filter P (f <$> l) = f <$> filter (λ x, P (f x)) l.
Proof.
  induction l as [|x l IH]; [done|].
  rewrite fmap_cons, !filter_cons, IH. by case_decide.
Qed.

Lemma bind_singletons {A B} (g : A → list B) (f : A → B) (l : list A) :
  (∀ x, x ∈ l → g x = [f x]) → l ≫= g = f <$> l.
Proof.
  induction l as [|x l IH]; intros Hg; [done|].
  rewrite bind_cons, fmap_cons, Hg, IH; [done| |].
  - intros y Hy. apply Hg, elem_of_cons. auto.
  - apply elem_of_cons. auto.
Qed.

(** Selecting by key in a table built from duplicate-free keys. *)
Lemma filter_keyed {K S} `{EqDecision K} (F : K → S) (name : S → K)
    (ks : list K) (n : K) :
  (∀ k, name (F k) = k) → NoDup ks →
  filter (λ s, name s = n) (F <$> ks) = if decide (n ∈ ks) then [F n] else [].
Proof.
  intros Hname. induction 1 as [|k ks Hk Hks IH]; [done|].
  rewrite fmap_cons, filter_cons, IH, Hname.
  destruct (decide (k = n)) as [->|Hne].
  - rewrite (decide_True (P := n ∈ n :: ks)) by (apply elem_of_cons; auto).
    by rewrite decide_False.
  - destruct (decide (n ∈ ks)) as [Hin|Hin].
    + rewrite decide_True; [done|]. apply elem_of_cons; auto.
    + rewrite decide_False; [done|]. rewrite elem_of_cons. intros [?|?]; congruence.
Qed.

(** ** Preprocessing *)

Section preprocessing.
Import utils.
Variable lib : Series.Reductions.

Lemma rows_timed (df : DataFrame) :
  rows (fillna_payment_type (assign_day_of_week (assign_hour (assign_date df)))) =
  timed <$> rows df.
Proof.
  unfold fillna_payment_type, assign_day_of_week, assign_hour, assign_date, assign.
  cbn [rows]. rewrite <- !list_fmap_compose. by apply list_fmap_ext.
Qed.

Lemma item_prices_fmap (f : Row → Row) (cols cols' : list string) (rs : list Row) item :
  (∀ r, item_name (f r) = item_name r) → (∀ r, price (f r) = price r) →
  item_prices (mkDataFrame cols (f <$> rs)) item = item_prices (mkDataFrame cols' rs) item.
Proof.
  intros Hn Hp. unfold item_prices. cbn [rows].
  rewrite filter_fmap_comm, <- list_fmap_compose.
  rewrite (list_filter_iff _ (λ r, item_name r = item)) by (intros; by rewrite Hn).
  apply list_fmap_ext. intros i r Hi. apply Hp.
Qed.

Lemma price_stats_keyed (df : DataFrame) :
  price_stats lib df =
  (λ k, let b := band lib df k in
        mkPriceStats k (Series.agg_mean lib (item_prices df k))
          (Series.agg_std lib (item_prices df k)) b.2 b.1)
    <$> group_keys str_le (λ r, Some (item_name r)) (rows df).
Proof.
  unfold price_stats, groupby. rewrite <- list_fmap_compose.
  apply list_fmap_ext. intros i k Hi. cbn. unfold band, item_prices.
  by rewrite (list_filter_iff _ (λ r, item_name r = k)) by naive_solver.
Qed.

Lemma rows_merge_bounds (df : DataFrame) :
  rows (merge_bounds df (price_stats lib df)) =
  (λ r, let b := band lib df (item_name r) in set_bounds b.2 b.1 r) <$> rows df.
Proof.
  unfold merge_bounds. cbn [rows]. apply bind_singletons. intros r Hr.
  rewrite price_stats_keyed, filter_keyed; [|done|apply NoDup_group_keys].
  rewrite decide_True; [done|]. apply elem_of_group_keys. eauto.
Qed.

Lemma band_timed (df : DataFrame) item :
  band lib (fillna_payment_type (assign_day_of_week (assign_hour (assign_date df))))
    item = band lib df item.
Proof.
  destruct (fillna_payment_type _) as [cols rs] eqn:Hd.
  assert (rs = timed <$> rows df) as ->.
  { change rs with (rows (mkDataFrame cols rs)). rewrite <- Hd. apply rows_timed. }
  destruct df as [cols0 rs0]. cbn [rows]. unfold band.
  by rewrite (item_prices_fmap timed cols cols0) by (intros; reflexivity).
Qed.

(** The table an analyzer holds, row by row. *)
Lemma rows_preprocess (df : DataFrame) :
  rows (preprocess lib df) = enriched lib df <$> rows df.
Proof.
  unfold preprocess, assign_price_anomaly, assign. cbn [rows].
  rewrite rows_merge_bounds, rows_timed, <- !list_fmap_compose.
  apply list_fmap_ext. intros i r Hi. unfold compose.
  rewrite band_timed. reflexivity.
Qed.

Lemma length_preprocess (df : DataFrame) :
  length (rows (preprocess lib df)) = length (rows df).
Proof. by rewrite rows_preprocess, length_fmap. Qed.



(** A band built on at most one observation is NaN at both ends, and no
    price is outside it. *)
Lemma strictly_outside_single (df : DataFrame) item (p : float64) :
  (length (item_prices df item) ≤ 1)%nat →
  strictly_outside p (band lib df item) = false.
Proof.
  intros Hlen. unfold band, Series.agg_std, Series.agg_var.
  rewrite decide_True.
  - unfold strictly_outside, Float64.gtb. cbn [fst snd].
    by rewrite sqrt_nan, mul_nan_r, add_nan_r, sub_nan_r, ltb_nan_l, ltb_nan_r.
  - unfold Series.count, Series.dropna.
    pose proof (List.filter_length_le (λ x, negb (Float64.isnan x)) (item_prices df item)).
    lia.
Qed.

End preprocessing.

(** ** Price anomalies *)

Section anomalies.
Import utils.
Variable lib : Series.Reductions.

Lemma elem_of_rows_preprocess (df : DataFrame) (r : Row) :
  r ∈ rows (preprocess lib df) ↔ ∃ r0, r0 ∈ rows df ∧ r = enriched lib df r0.
Proof.
  rewrite rows_preprocess, list_elem_of_fmap.
  split; intros (r0 & ? & ?); exists r0; done.
Qed.


(** C2.  A row whose item name occurs exactly once in the table given to
    preprocessing is not flagged as a price anomaly. *)
Theorem single_occurrence_never_flagged (df : DataFrame) (r : Row) :
  r ∈ rows (preprocess lib df) →
  length (filter (λ x, item_name x = item_name r) (rows df)) = 1%nat →
  price_anomaly r = false.
Proof.
  intros (r0 & Hr0 & ->)%elem_of_rows_preprocess Hone.
  change (price_anomaly (enriched lib df r0))
    with (strictly_outside (price r0) (band lib df (item_name r0))).
  apply strictly_outside_single.
  unfold item_prices. rewrite length_fmap.
  change (item_name (enriched lib df r0)) with (item_name r0) in Hone. lia.
Qed.

(** X1.  After preprocessing no payment type is missing: a missing one has
    become "UNKNOWN", the others are kept. *)
Theorem payment_type_filled (df : DataFrame) :
  payment_type <$> rows (preprocess lib df) =
  (λ r, Some (default "UNKNOWN" (payment_type r))) <$> rows df.
Proof.
  rewrite rows_preprocess, <- list_fmap_compose. by apply list_fmap_ext.
Qed.

(** X2.  Preprocessing keeps the rows, in their order, with the eight loaded
    columns as they were apart from the payment type. *)
Theorem preprocess_keeps_rows (df : DataFrame) :
  (λ r, (timestamp r, location r, server_id r, table_number r, item_name r,
         item_category r, price r)) <$> rows (preprocess lib df) =
  (λ r, (timestamp r, location r, server_id r, table_number r, item_name r,
         item_category r, price r)) <$> rows df.
Proof.
  rewrite rows_preprocess, <- list_fmap_compose. by apply list_fmap_ext.
Qed.

End anomalies.


Lemma single_occurrence_never_flagged_witness :
  let t := utils.preprocess sample.lib sample.table1 in
  let r := default (sample.raw 0 "" None "" NaN None) (rows t !! 2%nat) in
  r ∈ rows t ∧ item_name r = "Soda" ∧
  length (filter (λ x, item_name x = item_name r) (rows sample.table1)) = 1%nat ∧
  price_anomaly r = false.
Proof.
  assert (Hin : default (sample.raw 0 "" None "" NaN None)
                  (rows (utils.preprocess sample.lib sample.table1) !! 2%nat)
                ∈ rows (utils.preprocess sample.lib sample.table1)).
  { apply list_elem_of_lookup. exists 2%nat. vm_compute. reflexivity. }
  split; [exact Hin|]. split; [vm_compute; reflexivity|].
  split; [vm_compute; reflexivity|].
  apply (single_occurrence_never_flagged sample.lib sample.table1 _ Hin).
  vm_compute. reflexivity.
Defined.

(** The band is the one of the doubles.  Eight burgers at 12.99 have, summed
    from left to right, the mean 12.989999999999998 and the standard
    deviation 0.0: the band is that one number and every one of the eight
    is flagged.  An infinite price leaves the item without bounds. *)
Example equal_prices_flagged :
  (λ r, (item_name r, price_anomaly r))
    <$> rows (utils.preprocess sample.lib sample.week)
  = replicate 8 ("Burger", true) ++ [("Soda", false)] ∧
  band sample.lib sample.week "Burger"
  = (S754_finite false 7312719894942842 (-49), S754_finite false 7312719894942842 (-49)) ∧
  (λ r, (price_anomaly r, lower_bound r, upper_bound r))
    <$> rows (utils.preprocess sample.lib
                (sample.loaded
                   [sample.raw 0 "Mall" None "Wine" Float64.PInf (Some "CASH");
                    sample.raw 0 "Mall" None "Wine" (Fin 8) (Some "DEBIT")]))
  = [(false, NaN, NaN); (false, NaN, NaN)].
Proof. repeat split; vm_compute; reflexivity. Qed.

(** ** The loader *)

Section loader.
Import utils.

Lemma missing_columns_spec (df : DataFrame) (c : string) :
  c ∈ (list_to_set required_columns ∖ list_to_set (columns df) : gset string) ↔
  c ∈ required_columns ∧ c ∉ columns df.
Proof. by rewrite elem_of_difference, !elem_of_list_to_set. Qed.

(** C3.  When the table that was read lacks at least one of the eight
    required columns, the loader fails with the schema error, a
    [ValueError] whose message holds exactly the required columns that are
    absent; when the table has all eight, the loader returns it. *)
Theorem load_pos_data_schema (w : World) (source : string) (from_database : bool)
    (df : DataFrame) :
  (if from_database then load_pos_data_from_db w source
   else load_pos_data_from_file w source) = inr df →
  ((∃ c, c ∈ required_columns ∧ c ∉ columns df) →
   ∃ missing : gset string,
     (load_pos_data w source from_database).2 =
       inl (ValueError (MissingRequiredColumns missing)) ∧
     ∀ c, c ∈ missing ↔ c ∈ required_columns ∧ c ∉ columns df) ∧
  ((∀ c, c ∈ required_columns → c ∈ columns df) →
   (load_pos_data w source from_database).2 = inr df).
Proof.
  intros Hread. unfold load_pos_data, load_and_validate. rewrite Hread.
  split.
  - intros (c & Hreq & Hmiss).
    exists (list_to_set required_columns ∖ list_to_set (columns df)).
    split; [|apply missing_columns_spec].
    rewrite decide_False; [done|].
    intros Hempty. apply (not_elem_of_empty (C := gset string) c).
    rewrite <- Hempty. by apply missing_columns_spec.
  - intros Hall. rewrite decide_True; [done|].
    apply set_eq. intros c. rewrite missing_columns_spec.
    split; [|by intros ?%not_elem_of_empty].
    intros [Hreq Hmiss]. destruct Hmiss. by apply Hall.
Qed.



End loader.

Lemma load_pos_data_schema_witness :
  utils.load_pos_data_from_file sample.world "incomplete.csv" = inr sample.incomplete ∧
  (∃ c, c ∈ utils.required_columns ∧ c ∉ columns sample.incomplete) ∧
  ∃ missing : gset string,
    (utils.load_pos_data sample.world "incomplete.csv" false).2 =
      inl (utils.ValueError (utils.MissingRequiredColumns missing)) ∧
    ∀ c, c ∈ missing ↔ c ∈ utils.required_columns ∧ c ∉ columns sample.incomplete.
Proof.
  assert (Hmiss : ∃ c, c ∈ utils.required_columns ∧ c ∉ columns sample.incomplete).
  { exists "price".
    split; apply (bool_decide_unpack _); vm_compute; reflexivity. }
  split; [reflexivity|]. split; [exact Hmiss|].
  exact (proj1 (load_pos_data_schema sample.world "incomplete.csv" false
                  sample.incomplete eq_refl) Hmiss).
Defined.


(** ** The weekday summary *)

Section weekday_summary.
Import ave_ticket_by_day.
Variable lib : Series.Reductions.

(** C6.  The summary has exactly seven lines, labelled with the weekday
    names from Monday to Sunday in that order, whatever the table holds. *)
Theorem daily_average_keys (df : DataFrame) :
  (analyze_daily_average_tickets lib df).*1 =
  ["Monday"; "Tuesday"; "Wednesday"; "Thursday"; "Friday"; "Saturday"; "Sunday"].
Proof.
  unfold analyze_daily_average_tickets. rewrite <- list_fmap_compose.
  change (?f ∘ ?g) with (id : string → string).
  by rewrite list_fmap_id.
Qed.

(** C10.  A weekday on which the table has no transaction appears in the
    summary with NaN (missing) in all three columns, and so with no
    zero. *)
Theorem daily_average_missing_day (df : DataFrame) (day : string) :
  day ∈ weekdays →
  Forall (λ r, dt_day_name (timestamp r) ≠ day) (rows df) →
  lookup_label day (analyze_daily_average_tickets lib df) = Some (mkDayStats NaN NaN NaN).
Proof.
  intros Hday Hnone. unfold analyze_daily_average_tickets.
  rewrite lookup_label_keyed, decide_True by done.
  match goal with |- context [lookup_label day ?t] =>
    assert (lookup_label day t = None) as ->; [|done] end.
  apply lookup_label_None. rewrite keys_of_aggregate by done.
  rewrite elem_of_group_keys. intros (r & Hr & [= Hk]).
  by eapply Forall_forall in Hnone.
Qed.

End weekday_summary.

Lemma daily_average_missing_day_witness :
  "Sunday" ∈ weekdays ∧
  Forall (λ r, dt_day_name (timestamp r) ≠ "Sunday") (rows sample.table1) ∧
  lookup_label "Sunday" (ave_ticket_by_day.analyze_daily_average_tickets sample.lib sample.table1) =
    Some (ave_ticket_by_day.mkDayStats NaN NaN NaN).
Proof.
  assert (H1 : "Sunday" ∈ weekdays).
  { apply (bool_decide_unpack _). vm_compute. reflexivity. }
  assert (H2 : Forall (λ r, dt_day_name (timestamp r) ≠ "Sunday") (rows sample.table1)).
  { apply (bool_decide_unpack _). vm_compute. reflexivity. }
  split; [exact H1|]. split; [exact H2|].
  exact (daily_average_missing_day sample.lib sample.table1 "Sunday" H1 H2).
Defined.

Example daily_average_sample :
  lookup_label "Monday" (ave_ticket_by_day.analyze_daily_average_tickets sample.lib sample.table1) =
    Some (ave_ticket_by_day.mkDayStats (Fin (1299 # 100)) (Fin 2) (Fin (1299 # 50))).
Proof. vm_compute. reflexivity. Qed.

(** ** Server performance *)

Section server_performance.
Import utils.
Variable lib : Series.Reductions.

#[local] Instance descending_total : Total descending.
Proof.
  intros x y. unfold descending.
  destruct (Float64.isnan x) eqn:Hx; [auto|].
  destruct (Float64.isnan y) eqn:Hy; [auto|].
  destruct (leb_total x y Hx Hy); auto.
Qed.

#[local] Instance descending_trans : Transitive descending.
Proof.
  intros x y z Hxy [Hz|Hzy]; [by left|]. right.
  destruct (leb_not_nan _ _ Hzy) as [_ Hy].
  destruct Hxy as [Hy'|Hyx]; [congruence|]. by eapply leb_trans.
Qed.

#[local] Instance by_total_sales_total {K} : Total (@by_total_sales K).
Proof. intros a b. apply descending_total. Qed.

#[local] Instance by_total_sales_trans {K} : Transitive (@by_total_sales K).
Proof. intros a b c. apply descending_trans. Qed.

Lemma server_prices_preprocess (df : DataFrame) (s : string) :
  price <$> filter (λ r, server_id r = Some s) (rows (preprocess lib df)) =
  price <$> filter (λ r, server_id r = Some s) (rows df).
Proof.
  rewrite rows_preprocess, filter_fmap_comm, <- list_fmap_compose.
  by apply list_fmap_ext.
Qed.

Lemma server_keys_preprocess (df : DataFrame) (s : string) :
  s ∈ group_keys str_le server_id (rows (preprocess lib df)) ↔
  ∃ r, r ∈ rows df ∧ server_id r = Some s.
Proof.
  rewrite elem_of_group_keys. split.
  - intros (r & (r0 & Hr0 & ->)%elem_of_rows_preprocess & Hs). by exists r0.
  - intros (r0 & Hr0 & Hs). exists (enriched lib df r0).
    split; [|done]. apply elem_of_rows_preprocess. by exists r0.
Qed.

Lemma server_transactions_preprocess (df : DataFrame) (s : string) :
  server_transactions (preprocess lib df) s = server_transactions df s.
Proof. unfold server_transactions. by rewrite server_prices_preprocess. Qed.

Lemma server_sales_preprocess (df : DataFrame) (s : string) :
  server_sales lib (preprocess lib df) s = server_sales lib df s.
Proof. unfold server_sales. by rewrite server_prices_preprocess. Qed.

(** The lines of the summary of a table [t]. *)
Lemma elem_of_server_performance (t : DataFrame) (min_transactions : Z)
    (s : string) (m : ServerMetrics) :
  (s, m) ∈ analyze_server_performance lib t min_transactions →
  s ∈ group_keys str_le server_id (rows t) ∧
  transaction_count m = server_transactions t s ∧
  total_sales m = server_sales lib t s ∧
  min_transactions ≤ server_transactions t s.
Proof.
  unfold analyze_server_performance.
  rewrite sort_values_Permutation, list_elem_of_fmap.
  intros ([k [[c n] a]] & Heq & [Hmin Hin]%list_elem_of_filter).
  apply list_elem_of_fmap in Hin as ([k' g] & Heq' & Hin).
  unfold groupby in Hin. apply list_elem_of_fmap in Hin as (k'' & Heq'' & Hk).
  cbn [fst snd] in *. simplify_eq. done.
Qed.

Lemma server_performance_complete (t : DataFrame) (min_transactions : Z) (s : string) :
  s ∈ group_keys str_le server_id (rows t) →
  min_transactions ≤ server_transactions t s →
  s ∈ (analyze_server_performance lib t min_transactions).*1.
Proof.
  intros Hs Hmin. unfold analyze_server_performance.
  rewrite sort_values_Permutation, <- list_fmap_compose.
  apply list_elem_of_fmap.
  set (g := filter (λ r, server_id r = Some s) (rows t)).
  exists (s, (agg_price lib g, Z.of_nat (length g),
              Z.of_nat (length (filter (λ r, price_anomaly r = true) g)))).
  split; [done|]. apply list_elem_of_filter. split; [done|].
  apply list_elem_of_fmap. exists (s, g). split; [done|].
  unfold groupby. apply list_elem_of_fmap. by exists s.
Qed.

(** When every row carries a price, the transaction count of a server is
    the number of its rows. *)
Lemma server_transactions_all_priced (df : DataFrame) (s : string) :
  Forall (λ r, Float64.isnan (price r) = false) (rows df) →
  server_transactions df s =
  Z.of_nat (length (filter (λ r, server_id r = Some s) (rows df))).
Proof.
  intros Hall. unfold server_transactions, Series.count, Series.dropna.
  f_equal. rewrite <- (length_fmap price).
  f_equal. apply forallb_filter_id, forallb_forall. intros x Hx%list_elem_of_In.
  apply list_elem_of_fmap in Hx as (r & -> & [_ Hr]%list_elem_of_filter).
  eapply Forall_forall in Hall; [|done]. by rewrite Hall.
Qed.

(** A server has at most one line. *)
Lemma server_performance_NoDup (t : DataFrame) (min_transactions : Z) :
  NoDup (analyze_server_performance lib t min_transactions).*1.
Proof.
  unfold analyze_server_performance.
  rewrite sort_values_Permutation, <- list_fmap_compose.
  change (fst ∘ _) with (fst : string * (TicketStats * Z * Z) → string).
  eapply sublist_NoDup; [|apply fmap_sublist, sublist_filter].
  rewrite keys_of_aggregate by done. apply NoDup_group_keys.
Qed.

(** C7.  The summary has a line for a server of the table exactly when the
    transaction count of that server is at least the threshold, so with
    threshold 0 every server of the table has one, and no server has two.
    A line shows the transaction count of its server and, as total sales,
    the sum of the prices of the rows of that server, to two decimals;
    and the lines are in descending order of these total sales, a NaN
    total coming last. *)
Theorem server_performance_threshold_sorted (df : DataFrame) (min_transactions : Z) :
  (∀ s, s ∈ (analyze_server_performance lib (preprocess lib df) min_transactions).*1 ↔
        (∃ r, r ∈ rows df ∧ server_id r = Some s) ∧
        min_transactions ≤ server_transactions df s) ∧
  (∀ s, s ∈ (analyze_server_performance lib (preprocess lib df) 0).*1 ↔
        ∃ r, r ∈ rows df ∧ server_id r = Some s) ∧
  NoDup (analyze_server_performance lib (preprocess lib df) min_transactions).*1 ∧
  Forall (λ sm : string * ServerMetrics,
            transaction_count sm.2 = server_transactions df sm.1 ∧
            total_sales sm.2 = server_sales lib df sm.1)
    (analyze_server_performance lib (preprocess lib df) min_transactions) ∧
  StronglySorted (λ a b : string * ServerMetrics,
                    descending (total_sales a.2) (total_sales b.2))
    (analyze_server_performance lib (preprocess lib df) min_transactions) ∧
  StronglySorted (λ a b : string * ServerMetrics,
                    descending (server_sales lib df a.1) (server_sales lib df b.1))
    (analyze_server_performance lib (preprocess lib df) min_transactions).
Proof.
  assert (Hiff : ∀ n s,
    s ∈ (analyze_server_performance lib (preprocess lib df) n).*1 ↔
    (∃ r, r ∈ rows df ∧ server_id r = Some s) ∧ n ≤ server_transactions df s).
  { intros n s.
    rewrite <- server_keys_preprocess, <- server_transactions_preprocess. split.
    - intros ([s' m] & -> & Hin)%list_elem_of_fmap.
      apply elem_of_server_performance in Hin. tauto.
    - intros [? ?]. by apply server_performance_complete. }
  assert (Hlines : Forall (λ sm : string * ServerMetrics,
            transaction_count sm.2 = server_transactions df sm.1 ∧
            total_sales sm.2 = server_sales lib df sm.1)
    (analyze_server_performance lib (preprocess lib df) min_transactions)).
  { apply Forall_forall. intros [s m] Hin.
    apply elem_of_server_performance in Hin.
    rewrite <- server_transactions_preprocess, <- server_sales_preprocess. tauto. }
  assert (Hsorted : StronglySorted (λ a b : string * ServerMetrics,
                    descending (total_sales a.2) (total_sales b.2))
    (analyze_server_performance lib (preprocess lib df) min_transactions)).
  { unfold analyze_server_performance.
    apply (StronglySorted_sort_values by_total_sales). }
  split; [apply Hiff|]. split; [|split; [|split; [done|split; [done|]]]].
  - intros s. rewrite Hiff. split; [tauto|]. intros Hs. split; [done|].
    unfold server_transactions, Series.count. lia.
  - apply server_performance_NoDup.
  - revert Hlines Hsorted.
    generalize (analyze_server_performance lib (preprocess lib df) min_transactions).
    intros l Hl Hs. induction Hs as [|a l Hs IH Ha]; [constructor|].
    apply Forall_cons in Hl as [[_ Ha'] Hl]. constructor; [by apply IH|].
    rewrite <- Ha'. clear IH Hs.
    induction Hl as [|b l [_ Hb] Hl IH]; [constructor|].
    apply Forall_cons in Ha as [Hab Ha]. constructor; [by rewrite <- Hb|by apply IH].
Qed.

End server_performance.

Example server_performance_sample :
  (λ sm : string * utils.ServerMetrics,
     (sm.1, utils.transaction_count (utils.server_ticket sm.2),
      utils.total_sales (utils.server_ticket sm.2)))
    <$> utils.analyze_server_performance sample.lib
          (utils.preprocess sample.lib sample.table1) 2 =
  [("S002", 2, Fin (14289 # 100)); ("S001", 2, Fin (799 # 50))] ∧
  (λ sm : string * utils.ServerMetrics, utils.avg_ticket (utils.server_ticket sm.2))
    <$> utils.analyze_server_performance sample.lib
          (utils.preprocess sample.lib sample.table1) 2 =
  [Fin (7145 # 100); Fin (799 # 100)] ∧
  utils.analyze_server_performance sample.lib
    (utils.preprocess sample.lib sample.table1) 3 = [].
Proof. repeat split; vm_compute; reflexivity. Qed.

(** Servers with equal total sales stay in the order of their ids. *)
Example server_performance_ties :
  (utils.analyze_server_performance sample.lib
     (utils.preprocess sample.lib
        (sample.loaded
           [sample.raw 0 "Mall" (Some "S003") "Soda" (Fin 1) (Some "CASH");
            sample.raw 0 "Mall" (Some "S001") "Soda" (Fin 1) (Some "CASH");
            sample.raw 0 "Mall" (Some "S002") "Soda" (Fin 1) (Some "CASH");
            sample.raw 0 "Mall" (Some "S004") "Soda" (Fin 2) (Some "CASH")])) 0).*1
  = ["S004"; "S001"; "S002"; "S003"].
Proof. vm_compute. reflexivity. Qed.

(** ** Construction of an analyzer *)

Section construction.
Import utils.
Variable lib : Series.Reductions.

Lemma update_Some (l : ref) (f : DataFrame → DataFrame) (h : heap) (d : DataFrame) :
  h !! l = Some d → update l f h = Some (<[l := f d]> h).
Proof. intros Hl. unfold update. by rewrite Hl. Qed.

(** Preprocessing writes the frame [self.df] names and one new frame. *)
Lemma _preprocess_data_spec (l : ref) (h : heap) (d : DataFrame) :
  h !! l = Some d →
  ∃ (merged : ref) (d' : DataFrame),
    (merged ∉ dom h) ∧
    _preprocess_data lib (mkAnalyzer l) h =
      Some (mkAnalyzer merged, <[merged := preprocess lib d]> (<[l := d']> h)).
Proof.
  intros Hl. unfold _preprocess_data. cbn [self_df].
  rewrite (update_Some _ _ _ _ Hl). cbn [mbind option_bind].
  rewrite (update_Some l assign_hour _ _ (lookup_insert_eq _ _ _)).
  cbn [mbind option_bind]. rewrite insert_insert_eq.
  rewrite (update_Some l assign_day_of_week _ _ (lookup_insert_eq _ _ _)).
  cbn [mbind option_bind]. rewrite insert_insert_eq.
  rewrite (update_Some l fillna_payment_type _ _ (lookup_insert_eq _ _ _)).
  cbn [mbind option_bind]. rewrite insert_insert_eq, lookup_insert_eq.
  cbn [mbind option_bind].
  set (d4 := fillna_payment_type _). set (h4 := <[l := d4]> h).
  rewrite (update_Some (fresh (dom h4)) assign_price_anomaly _ _ (lookup_insert_eq _ _ _)).
  cbn [mbind option_bind]. rewrite insert_insert_eq.
  exists (fresh (dom h4)), d4. split; [|done].
  pose proof (is_fresh (dom h4)) as Hfresh. unfold h4 in Hfresh at 2.
  rewrite dom_insert_L in Hfresh. set_solver.
Qed.

(** C8.  Building an analyzer on the table stored at [df] succeeds and
    leaves that table, and every other frame that existed, as it was: the
    analyzer works on a frame of its own, which ends up holding the
    preprocessed copy. *)
Theorem init_leaves_input_unchanged (h : heap) (df : ref) (d : DataFrame) :
  h !! df = Some d →
  ∃ (self : POSDataAnalyzer) (h' : heap),
    __init__ lib df h = Some (self, h') ∧
    h' !! df = Some d ∧
    (∀ l, is_Some (h !! l) → h' !! l = h !! l) ∧
    self_df self ≠ df ∧
    h' !! self_df self = Some (preprocess lib d).
Proof.
  intros Hdf. unfold __init__, copy. rewrite Hdf. cbn [mbind option_bind].
  set (l := fresh (dom h)).
  assert (Hl : l ∉ dom h) by apply is_fresh.
  destruct (_preprocess_data_spec l (<[l := d]> h) d (lookup_insert_eq _ _ _))
    as (merged & d' & Hmerged & ->).
  rewrite insert_insert_eq. rewrite dom_insert_L in Hmerged.
  assert (Hold : ∀ k, is_Some (h !! k) →
            (<[merged := preprocess lib d]> (<[l := d']> h)) !! k = h !! k).
  { intros k Hk%elem_of_dom.
    rewrite !lookup_insert_ne; [done| |]; set_solver. }
  eexists _, _. split; [done|]. split; [|split; [done|split]].
  - rewrite Hold; [done|]. by rewrite Hdf.
  - cbn. intros ->. apply Hmerged. apply elem_of_union_r, elem_of_dom. by rewrite Hdf.
  - cbn. by rewrite lookup_insert_eq.
Qed.

End construction.

Lemma init_leaves_input_unchanged_witness :
  ({[1%positive := sample.table1]} : gmap positive DataFrame) !! 1%positive
    = Some sample.table1 ∧
  ∃ (self : utils.POSDataAnalyzer) (h' : gmap positive DataFrame),
    utils.__init__ sample.lib 1%positive {[1%positive := sample.table1]}
      = Some (self, h') ∧
    h' !! 1%positive = Some sample.table1 ∧
    (∀ l, is_Some (({[1%positive := sample.table1]} : gmap positive DataFrame) !! l) →
          h' !! l = ({[1%positive := sample.table1]} : gmap positive DataFrame) !! l) ∧
    utils.self_df self ≠ 1%positive ∧
    h' !! utils.self_df self = Some (utils.preprocess sample.lib sample.table1).
Proof.
  split; [reflexivity|].
  exact (init_leaves_input_unchanged sample.lib {[1%positive := sample.table1]}
           1%positive sample.table1 eq_refl).
Defined.

(** ** The location-hour heatmap *)

Section products.
Context {A B : Type}.

Lemma elem_of_product (l1 : list A) (l2 : list B) (x : A) (y : B) :
  (x, y) ∈ (a ← l1; b ← l2; [(a, b)]) ↔ x ∈ l1 ∧ y ∈ l2.
Proof.
  rewrite list_elem_of_bind. split.
  - intros (a & (b & Hab & Hb)%list_elem_of_bind & Ha).
    apply list_elem_of_singleton in Hab as [= -> ->]. done.
  - intros [Hx Hy]. exists x. split; [|done].
    apply list_elem_of_bind. exists y. split; [|done].
    by apply list_elem_of_singleton.
Qed.

Lemma NoDup_product (l1 : list A) (l2 : list B) :
  NoDup l1 → NoDup l2 → NoDup (a ← l1; b ← l2; [(a, b)]).
Proof.
  intros H1 H2. apply NoDup_bind; [| |done].
  - intros a1 a2 [a b] _ _ (b1 & Hb1 & _)%list_elem_of_bind
      (b2 & Hb2 & _)%list_elem_of_bind.
    apply list_elem_of_singleton in Hb1, Hb2. congruence.
  - intros a _. apply NoDup_bind; [| |done].
    + intros b1 b2 y _ _ Hb1 Hb2.
      apply list_elem_of_singleton in Hb1, Hb2. congruence.
    + intros b _. apply NoDup_singleton.
Qed.

End products.

Section heatmap_cells.
Import heatmap.

Lemma elem_of_expected_hours (h : Z) : h ∈ expected_hours ↔ 11 ≤ h ≤ 22.
Proof. unfold expected_hours. rewrite elem_of_seqZ. lia. Qed.

Lemma elem_of_locations (t : DataFrame) (l : string) :
  l ∈ locations t ↔ ∃ r, r ∈ rows t ∧ location r = l.
Proof.
  unfold locations. rewrite elem_of_group_keys.
  split; intros (r & ? & ?); exists r; split; congruence.
Qed.

(** The count of a location-hour bucket, present among the groups or
    filled with 0. *)
Lemma bucket_lookup (t : DataFrame) (k : string * Z) :
  default 0
    (lookup_label k
       ((λ kg : (string * Z) * list Row, (kg.1, Z.of_nat (length kg.2)))
          <$> groupby (pair_le str_le Z.le) (λ r, Some (location r, hour r)) (rows t))) =
  bucket t k.1 k.2.
Proof.
  rewrite (agg_groupby _ (λ _ g, Z.of_nat (length g))), lookup_label_keyed.
  unfold bucket. destruct k as [l h]. cbn [fst snd]. case_decide as Hk.
  - cbn. f_equal. f_equal. apply list_filter_iff. intros r. split.
    + by intros [= -> ->].
    + by intros [-> ->].
  - cbn. destruct (filter _ (rows t)) as [|r rs] eqn:Hf; [done|].
    destruct Hk. apply elem_of_group_keys. exists r.
    assert (Hr : r ∈ filter (λ r, location r = l ∧ hour r = h) (rows t)).
    { rewrite Hf. apply elem_of_cons. auto. }
    apply list_elem_of_filter in Hr as [[-> ->] Hr]. done.
Qed.

Lemma days_lookup (t : DataFrame) (l : string) :
  l ∈ locations t →
  lookup_label l
    ((λ kg : string * list Row, (kg.1, Series.nunique (date <$> kg.2)))
       <$> groupby str_le (λ r, Some (location r)) (rows t)) =
  Some (days_at t l).
Proof.
  intros Hl.
  rewrite (agg_groupby _ (λ _ g, Series.nunique (date <$> g))), lookup_label_keyed.
  rewrite decide_True by done. unfold days_at. do 3 f_equal.
  apply list_filter_iff. intros r. split; congruence.
Qed.

(** The heatmap of an analyzer's table that has rows: nothing raises, and
    there is a cell exactly for the locations of the table and the hours
    11 to 22. *)
Lemma heatmap_cells (t : DataFrame) :
  rows t ≠ [] →
  ∃ heatmap_data,
    create_location_hour_heatmap t = Some heatmap_data ∧
    ∀ l h, cell heatmap_data l h =
           if decide (l ∈ locations t ∧ 11 ≤ h ≤ 22)
           then Some (average_orders (bucket t l h) (days_at t l))
           else None.
Proof.
  intros Hrows. unfold create_location_hour_heatmap.
  rewrite keys_of_aggregate by done. fold (locations t).
  set (combos := locations t ≫= _).
  assert (Hcombos : ∀ l h, (l, h) ∈ combos ↔ l ∈ locations t ∧ 11 ≤ h ≤ 22).
  { intros l h. unfold combos.
    rewrite (elem_of_product (locations t) expected_hours).
    by rewrite elem_of_expected_hours. }
  rewrite decide_False.
  2:{ destruct (rows t) as [|r rs] eqn:Hr; [done|].
      assert (Hin : (location r, 11) ∈ combos).
      { apply Hcombos. split; [|lia]. apply elem_of_locations. exists r.
        split; [|done]. rewrite Hr. apply elem_of_cons. auto. }
      intros Hnil. apply (f_equal length) in Hnil. rewrite length_fmap in Hnil.
      destruct combos; [by apply elem_of_nil in Hin|done]. }
  rewrite (mapM_keyed _
    (λ row : (string * Z) * Z,
       (row.1, average_orders row.2 (days_at t row.1.1)))).
  2:{ intros [[l h] n] ([l' h'] & [= -> -> ->] & Hin)%list_elem_of_fmap.
      apply Hcombos in Hin as [Hl _]. cbn [fst snd].
      by rewrite days_lookup. }
  cbn [mbind option_bind]. rewrite <- list_fmap_compose.
  erewrite (list_fmap_ext _
    (λ k, (k, average_orders (bucket t k.1 k.2) (days_at t k.1))) combos).
  2:{ intros i k Hi. unfold compose. cbn [fst snd]. by rewrite bucket_lookup. }
  unfold pivot. rewrite keyed_keys.
  rewrite decide_True.
  2:{ apply NoDup_product; [apply NoDup_group_keys|apply NoDup_seqZ]. }
  eexists. split; [done|]. intros l h. unfold cell.
  rewrite lookup_label_keyed.
  assert (Hindex : l ∈ merge_sort str_le (remove_dups combos.*1) ↔ l ∈ locations t).
  { rewrite merge_sort_Permutation, elem_of_remove_dups, list_elem_of_fmap. split.
    - intros ([l' h'] & -> & Hin). by apply Hcombos in Hin as [? _].
    - intros Hl. exists (l, 11). split; [done|]. apply Hcombos. split; [done|lia]. }
  assert (Hcols : l ∈ locations t →
            h ∈ merge_sort Z.le (remove_dups combos.*2) ↔ 11 ≤ h ≤ 22).
  { intros Hl.
    rewrite merge_sort_Permutation, elem_of_remove_dups, list_elem_of_fmap. split.
    - intros ([l' h'] & -> & Hin). by apply Hcombos in Hin as [_ ?].
    - intros Hh. exists (l, h). split; [done|]. by apply Hcombos. }
  destruct (decide (l ∈ locations t ∧ 11 ≤ h ≤ 22)) as [[Hl Hh]|Hno].
  - rewrite decide_True by by apply Hindex. cbn [mbind option_bind].
    rewrite lookup_label_keyed, decide_True by by apply Hcols.
    rewrite lookup_label_keyed, decide_True by by apply Hcombos.
    done.
  - case_decide as Hin; [|done]. cbn [mbind option_bind].
    apply Hindex in Hin. rewrite lookup_label_keyed, decide_False; [done|].
    rewrite Hcols by done. tauto.
Qed.

End heatmap_cells.

Lemma length_remove_dups_new {A} `{EqDecision A} (a b : list A) (x : A) :
  x ∉ a ++ b →
  length (remove_dups (a ++ x :: b)) = S (length (remove_dups (a ++ b))).
Proof.
  intros Hx. change (S (length (remove_dups (a ++ b))))
    with (length (x :: remove_dups (a ++ b))).
  apply Permutation_length, NoDup_Permutation.
  - apply NoDup_remove_dups.
  - apply NoDup_cons. split; [by rewrite elem_of_remove_dups|apply NoDup_remove_dups].
  - intros y. rewrite elem_of_cons, !elem_of_remove_dups, !elem_of_app, elem_of_cons.
    tauto.
Qed.

Lemma average_orders_zero (days : Z) : 0 < days → average_orders 0 days = Fin 0.
Proof.
  intros Hdays. unfold average_orders. by rewrite div_zero_by_positive.
Qed.

Section heatmap_of_input.
Import utils heatmap.
Variable lib : Series.Reductions.

Lemma rows_preprocess_nonempty (df : DataFrame) (r : Row) :
  r ∈ rows df → rows (preprocess lib df) ≠ [].
Proof.
  intros Hr. rewrite rows_preprocess. intros Hnil%fmap_nil_inv.
  rewrite Hnil in Hr. by apply elem_of_nil in Hr.
Qed.

Lemma locations_preprocess (df : DataFrame) (l : string) :
  l ∈ locations (preprocess lib df) ↔ ∃ r, r ∈ rows df ∧ location r = l.
Proof.
  rewrite elem_of_locations. split.
  - intros (r & (r0 & Hr0 & ->)%elem_of_rows_preprocess & Hl). by exists r0.
  - intros (r0 & Hr0 & Hl). exists (enriched lib df r0).
    split; [|done]. apply elem_of_rows_preprocess. by exists r0.
Qed.

Lemma bucket_preprocess (df : DataFrame) (l : string) (h : Z) :
  bucket (preprocess lib df) l h = orders df l h.
Proof.
  unfold bucket, orders. by rewrite rows_preprocess, filter_fmap_comm, length_fmap.
Qed.

Lemma days_at_preprocess (df : DataFrame) (l : string) :
  days_at (preprocess lib df) l = open_days df l.
Proof.
  unfold days_at, open_days.
  rewrite rows_preprocess, filter_fmap_comm, <- list_fmap_compose. done.
Qed.

Lemma open_days_positive (df : DataFrame) (r : Row) :
  r ∈ rows df → 1 ≤ open_days df (location r).
Proof.
  intros Hr. unfold open_days, Series.nunique.
  destruct (remove_dups _) as [|d ds] eqn:Hd; [|cbn; lia].
  assert (Hin : dt_date (timestamp r) ∈
                remove_dups ((λ r, dt_date (timestamp r)) <$>
                             filter (λ x, location x = location r) (rows df))).
  { apply elem_of_remove_dups, list_elem_of_fmap. exists r.
    split; [done|]. by apply list_elem_of_filter. }
  rewrite Hd in Hin. by apply elem_of_nil in Hin.
Qed.

(** C5.  For a location of the table and an hour from 11 to 22 the heatmap
    has a cell; its value is the number of orders of the location in that
    hour divided by the number of distinct dates of the location, rounded
    to one decimal; and it is 0.0 when the location has no order in that
    hour. *)
Theorem heatmap_every_pair (df : DataFrame) (l : string) (h : Z) :
  (∃ r, r ∈ rows df ∧ location r = l) → 11 ≤ h ≤ 22 →
  ∃ heatmap_data,
    create_location_hour_heatmap (preprocess lib df) = Some heatmap_data ∧
    cell heatmap_data l h =
      Some (Float64.round 1
              (Float64.div (Float64.of_Z (orders df l h))
                           (Float64.of_Z (open_days df l)))) ∧
    (orders df l h = 0 → cell heatmap_data l h = Some (Fin 0)).
Proof.
  intros Hl Hh.
  destruct (heatmap_cells (preprocess lib df)) as (hm & Hhm & Hcell).
  { destruct Hl as (r & Hr & _). by eapply rows_preprocess_nonempty. }
  exists hm. split; [done|].
  assert (Hc : cell hm l h = Some (average_orders (orders df l h) (open_days df l))).
  { rewrite Hcell, decide_True by by rewrite locations_preprocess.
    by rewrite bucket_preprocess, days_at_preprocess. }
  split; [done|]. intros Hzero. rewrite Hc, Hzero.
  destruct Hl as (r & Hr & <-).
  pose proof (open_days_positive df r Hr).
  rewrite average_orders_zero; [done|lia].
Qed.

(** C9.  A record whose hour is outside 11 to 22 has no cell of its own in
    the heatmap and is counted in no cell: the cells of its location show
    the orders of the other records.  They are divided by the number of
    distinct dates of all records of the location, that record included,
    so that a record which is alone on its date raises the divisor by
    one. *)
Theorem out_of_hours_record (cols : list string) (before after : list Row)
    (r : Row) (h : Z) :
  ¬ (11 ≤ dt_hour (timestamp r) ≤ 22) → 11 ≤ h ≤ 22 →
  ∃ heatmap_data,
    create_location_hour_heatmap
      (preprocess lib (mkDataFrame cols (before ++ r :: after))) = Some heatmap_data ∧
    cell heatmap_data (location r) (dt_hour (timestamp r)) = None ∧
    cell heatmap_data (location r) h =
      Some (Float64.round 1
              (Float64.div
                 (Float64.of_Z (orders (mkDataFrame cols (before ++ after)) (location r) h))
                 (Float64.of_Z
                    (open_days (mkDataFrame cols (before ++ r :: after)) (location r))))) ∧
    (Forall (λ x, location x = location r →
                  dt_date (timestamp x) ≠ dt_date (timestamp r)) (before ++ after) →
     open_days (mkDataFrame cols (before ++ r :: after)) (location r) =
     open_days (mkDataFrame cols (before ++ after)) (location r) + 1).
Proof.
  intros Hout Hh.
  set (df := mkDataFrame cols (before ++ r :: after)).
  destruct (heatmap_cells (preprocess lib df)) as (hm & Hhm & Hcell).
  { apply (rows_preprocess_nonempty df r). cbn. apply elem_of_app. right.
    apply elem_of_cons. auto. }
  exists hm. split; [done|]. split; [|split].
  - rewrite Hcell, decide_False; [done|]. tauto.
  - rewrite Hcell, decide_True.
    2:{ split; [|done]. apply locations_preprocess. exists r. split; [|done].
        cbn. apply elem_of_app. right. apply elem_of_cons. auto. }
    rewrite bucket_preprocess, days_at_preprocess. unfold average_orders.
    do 4 f_equal. unfold orders, df. cbn [rows].
    rewrite !filter_app, filter_cons_False; [done|].
    intros [_ Hr]. lia.
  - intros Hnew. unfold open_days, df, Series.nunique. cbn [rows].
    rewrite !filter_app, filter_cons_True by done.
    rewrite !fmap_app, fmap_cons, length_remove_dups_new; [lia|].
    rewrite <- fmap_app, <- filter_app.
    intros (x & Hdate & [Hloc Hx]%list_elem_of_filter)%list_elem_of_fmap.
    eapply Forall_forall in Hnew; [|done]. by apply Hnew.
Qed.

End heatmap_of_input.

Lemma heatmap_every_pair_witness :
  (∃ r, r ∈ rows sample.table1 ∧ location r = "Downtown") ∧ 11 ≤ 12 ≤ 22 ∧
  ∃ heatmap_data,
    heatmap.create_location_hour_heatmap
      (utils.preprocess sample.lib sample.table1) = Some heatmap_data ∧
    heatmap.cell heatmap_data "Downtown" 12 = Some (Fin (1 # 2)).
Proof.
  assert (H1 : ∃ r, r ∈ rows sample.table1 ∧ location r = "Downtown").
  { eexists. split; [apply list_elem_of_here|reflexivity]. }
  assert (H2 : 11 ≤ 12 ≤ 22) by lia.
  split; [exact H1|]. split; [exact H2|].
  destruct (heatmap_every_pair sample.lib sample.table1 "Downtown" 12 H1 H2)
    as (hm & Hhm & Hcell & _).
  exists hm. split; [exact Hhm|]. rewrite Hcell. vm_compute. reflexivity.
Defined.

Lemma out_of_hours_record_witness :
  ¬ (11 ≤ dt_hour (timestamp sample.early) ≤ 22) ∧ 11 ≤ 12 ≤ 22 ∧
  ∃ heatmap_data,
    heatmap.create_location_hour_heatmap
      (utils.preprocess sample.lib (sample.loaded [sample.lunch; sample.early]))
      = Some heatmap_data ∧
    heatmap.cell heatmap_data "Downtown" 9 = None ∧
    heatmap.cell heatmap_data "Downtown" 12 = Some (Fin (1 # 2)) ∧
    open_days (sample.loaded [sample.lunch; sample.early]) "Downtown" = 2.
Proof.
  assert (H1 : ¬ (11 ≤ dt_hour (timestamp sample.early) ≤ 22)).
  { vm_compute. intros [H _]. apply H. reflexivity. }
  assert (H2 : 11 ≤ 12 ≤ 22) by lia.
  split; [exact H1|]. split; [exact H2|].
  destruct (out_of_hours_record sample.lib utils.required_columns
              [sample.lunch] [] sample.early 12 H1 H2)
    as (hm & Hhm & Hnone & Hcell & Hdays).
  exists hm. split; [exact Hhm|]. split; [exact Hnone|]. split.
  - etransitivity; [exact Hcell|]. vm_compute. reflexivity.
  - vm_compute. reflexivity.
Defined.
(** ** The payment-type distribution *)

Section payment_types.
Import utils.
Variable lib : Series.Reductions.






End payment_types.



(** A sale and its refund: the totals cancel, the shares are infinite. *)
Example refund_shares :
  (λ km : string * utils.PaymentMetrics, utils.sales_percentage km.2)
    <$> utils.analyze_payment_types sample.lib
          (utils.preprocess sample.lib
             (sample.loaded
                [sample.raw 0 "Mall" None "Wine" (Fin 5) (Some "CASH");
                 sample.raw 0 "Mall" None "Wine" (Fin (-5)) (Some "DEBIT")]))
  = [Float64.PInf; Float64.NInf].
Proof. vm_compute. reflexivity. Qed.

(** Three equal shares of 33.33 add up to 99.99, and the shares of the
    first sample table to 100. *)
Example three_equal_shares :
  percentage_total
    (utils.analyze_payment_types sample.lib (utils.preprocess sample.lib sample.three_ways))
  = Fin (9999 # 100) ∧
  percentage_total
    (utils.analyze_payment_types sample.lib (utils.preprocess sample.lib sample.table1))
  = Fin 100.
Proof. split; vm_compute; reflexivity. Qed.

(** Binary rounding shows in the shares: totals of 0.1, 0.2 and -0.3 add
    up to 5.55e-17, not to zero, and the shares are finite numbers of the
    order of 1e17. *)
Example rounding_error_shares :
  (λ km : string * utils.PaymentMetrics, utils.sales_percentage km.2)
    <$> utils.analyze_payment_types sample.lib
          (utils.preprocess sample.lib
             (sample.loaded
                [sample.raw 0 "Mall" None "A" (Fin (1 # 10)) (Some "CASH");
                 sample.raw 0 "Mall" None "B" (Fin (2 # 10)) (Some "DEBIT");
                 sample.raw 0 "Mall" None "C" (Fin (-(3 # 10))) (Some "X")]))
  = [S754_finite false 5629499534213120 5; S754_finite false 5629499534213120 6;
     S754_finite true 8444249301319680 6].
Proof. vm_compute. reflexivity. Qed.

(** One infinite price makes the share of its payment type inf/inf. *)
Example infinite_price_share :
  (λ km : string * utils.PaymentMetrics, utils.sales_percentage km.2)
    <$> utils.analyze_payment_types sample.lib
          (utils.preprocess sample.lib
             (sample.loaded
                [sample.raw 0 "Mall" None "Wine" Float64.PInf (Some "CASH");
                 sample.raw 0 "Mall" None "Wine" (Fin 8) (Some "DEBIT")]))
  = [NaN; Fin 0].
Proof. vm_compute. reflexivity. Qed.

(** ** Groups partition the rows *)

Section partition.
Context {A K : Type} `{EqDecision K}.

Lemma length_filter_or (P1 P2 : A → Prop) `{!∀ x, Decision (P1 x), !∀ x, Decision (P2 x)}
    (l : list A) :
  (∀ x, P1 x → P2 x → False) →
  length (filter (λ x, P1 x ∨ P2 x) l) =
  (length (filter P1 l) + length (filter P2 l))%nat.
Proof.
  intros Hdisj. induction l as [|x l IH]; [done|].
  rewrite !filter_cons.
  destruct (decide (P1 x)) as [H1|H1], (decide (P2 x)) as [H2|H2].
  - destruct (Hdisj x H1 H2).
  - rewrite decide_True by auto. cbn. by rewrite IH.
  - rewrite decide_True by auto. cbn. rewrite IH. lia.
  - rewrite decide_False by tauto. done.
Qed.

Lemma filter_none (P : A → Prop) `{!∀ x, Decision (P x)} (l : list A) :
  (∀ x, ¬ P x) → filter P l = [].
Proof.
  intros HP. induction l as [|x l IH]; [done|].
  by rewrite filter_cons_False.
Qed.

(** The rows that satisfy [Q], counted key by key over keys without
    repetition, are the rows that satisfy [Q] and have one of the keys. *)
Lemma count_by_key (Q : A → Prop) `{!∀ x, Decision (Q x)} (key : A → option K)
    (ks : list K) (rs : list A) :
  NoDup ks →
  sum_list_with (λ k, length (filter Q (filter (λ r, key r = Some k) rs))) ks =
  length (filter (λ r, Q r ∧ key r ∈ Some <$> ks) rs).
Proof.
  induction 1 as [|k ks Hk _ IH].
  { cbn. rewrite filter_none; [done|]. intros r [_ Hr]. by apply elem_of_nil in Hr. }
  cbn [sum_list_with]. rewrite IH, list_filter_filter.
  rewrite <- length_filter_or.
  - f_equal. apply list_filter_iff. intros r.
    rewrite fmap_cons, elem_of_cons. split.
    + intros [[? ?]|[? ?]]; auto.
    + intros [? [?|?]]; auto.
  - intros r [_ Hr] [_ Hin]. rewrite Hr in Hin.
    apply list_elem_of_fmap in Hin as (k' & [= <-] & Hin). done.
Qed.

Lemma filter_ext_elem_of (P1 P2 : A → Prop)
    `{!∀ x, Decision (P1 x), !∀ x, Decision (P2 x)} (l : list A) :
  (∀ x, x ∈ l → P1 x ↔ P2 x) → filter P1 l = filter P2 l.
Proof.
  induction l as [|x l IH]; intros Hext; [done|].
  rewrite !filter_cons, IH.
  - destruct (decide (P1 x)) as [H1|H1].
    + rewrite decide_True; [done|]. apply Hext; [apply elem_of_cons; auto|done].
    + rewrite decide_False; [done|]. intros H2. apply H1, Hext; [apply elem_of_cons; auto|done].
  - intros y Hy. apply Hext, elem_of_cons. auto.
Qed.

Lemma sum_list_with_fmap {B} (f : B → nat) (g : K → B) (ks : list K) :
  sum_list_with f (g <$> ks) = sum_list_with (λ k, f (g k)) ks.
Proof. induction ks as [|k ks IH]; [done|]. cbn. by rewrite IH. Qed.

(** The groups of a table hold, between them, the rows that have a key. *)
Lemma groupby_counts (R : relation K) `{!RelDecision R}
    (Q : A → Prop) `{!∀ x, Decision (Q x)} (key : A → option K) (rs : list A) :
  sum_list_with (λ kg : K * list A, length (filter Q kg.2)) (groupby R key rs) =
  length (filter (λ r, Q r ∧ is_Some (key r)) rs).
Proof.
  unfold groupby. rewrite sum_list_with_fmap. cbn [snd].
  rewrite count_by_key by apply NoDup_group_keys.
  f_equal. apply filter_ext_elem_of. intros r Hr.
  split; intros [HQ Hkey]; (split; [done|]).
  - apply list_elem_of_fmap in Hkey as (k & -> & _). by eexists.
  - destruct Hkey as [k Hk]. rewrite Hk. apply list_elem_of_fmap_2.
    apply elem_of_group_keys. eauto.
Qed.

End partition.

Lemma Ztotal_of_nat {B} (f : B → nat) (l : list B) :
  Ztotal ((λ x, Z.of_nat (f x)) <$> l) = Z.of_nat (sum_list_with f l).
Proof.
  induction l as [|x l IH]; [done|].
  rewrite fmap_cons. unfold Ztotal in *. cbn [foldr sum_list_with]. rewrite IH. lia.
Qed.

(** Counting the prices of some rows is counting the rows with a price. *)
Lemma priced_filter (rs : list Row) :
  priced rs = Z.of_nat (length (filter (λ r, Float64.isnan (price r) = false) rs)).
Proof.
  unfold priced, Series.count, Series.dropna. f_equal.
  induction rs as [|r rs IH]; [done|].
  rewrite fmap_cons, filter_cons. cbn [List.filter].
  destruct (Float64.isnan (price r)); cbn; [done|]. by rewrite IH.
Qed.

(** The counts of the groups add up to the number of rows that have a
    key and a price. *)
Lemma groupby_priced {K} `{EqDecision K} (R : relation K) `{!RelDecision R}
    (key : Row → option K) (rs : list Row) :
  Ztotal ((λ kg : K * list Row, priced kg.2) <$> groupby R key rs) =
  priced (filter (λ r, is_Some (key r)) rs).
Proof.
  erewrite list_fmap_ext; [|intros i kg _; apply priced_filter].
  rewrite (Ztotal_of_nat (λ kg : K * list Row, length (filter _ kg.2))).
  rewrite groupby_counts, priced_filter. by rewrite list_filter_filter.
Qed.

Lemma filter_all {A} (P : A → Prop) `{!∀ x, Decision (P x)} (l : list A) :
  Forall P l → filter P l = l.
Proof.
  induction 1 as [|x l Hx _ IH]; [done|]. by rewrite filter_cons_True, IH.
Qed.

Lemma Ztotal_Permutation (l1 l2 : list Z) : l1 ≡ₚ l2 → Ztotal l1 = Ztotal l2.
Proof.
  unfold Ztotal. induction 1; cbn; lia.
Qed.

(** ** The reports of an analyzer *)

Section reports.
Import utils.
Variable lib : Series.Reductions.

Lemma priced_preprocess (df : DataFrame) :
  priced (rows (preprocess lib df)) = priced (rows df).
Proof.
  unfold priced. rewrite rows_preprocess, <- list_fmap_compose. reflexivity.
Qed.

Lemma payment_type_is_Some (df : DataFrame) :
  Forall (λ r, is_Some (payment_type r)) (rows (preprocess lib df)).
Proof.
  rewrite rows_preprocess. apply Forall_fmap, Forall_forall. intros r _. by eexists.
Qed.

Lemma groupby_priced_preprocess `{EqDecision K} (R : relation K) `{!RelDecision R}
    (key : Row → option K) (df : DataFrame) :
  Forall (λ r, is_Some (key r)) (rows (preprocess lib df)) →
  Ztotal ((λ kg : K * list Row, priced kg.2)
            <$> groupby R key (rows (preprocess lib df)))
  = priced (rows df).
Proof.
  intros Hkey. rewrite groupby_priced, filter_all; [apply priced_preprocess|done].
Qed.

(** X4.  The daily, hourly and location reports of an analyzer each
    account for every row with a price once: in each of the three the
    transaction counts add up to the number of rows of the table that
    carry a price. *)
Theorem breakdowns_account_for_priced_rows (df : DataFrame) :
  Ztotal ((λ km : Z * SalesStats, transaction_count km.2)
            <$> analyze_daily_trends lib (preprocess lib df)) = priced (rows df) ∧
  Ztotal ((λ km : Z * (TicketStats * Z), transaction_count km.2.1)
            <$> analyze_hourly_patterns lib (preprocess lib df)) = priced (rows df) ∧
  Ztotal ((λ km : string * SalesStats, transaction_count km.2)
            <$> analyze_location_performance lib (preprocess lib df)) = priced (rows df).
Proof.
  unfold analyze_daily_trends, analyze_hourly_patterns, analyze_location_performance.
  rewrite <- !list_fmap_compose.
  repeat split;
    (apply groupby_priced_preprocess, Forall_forall; intros r _; by eexists).
Qed.

(** A row with a price and a payment type is counted in the line of its
    payment type. *)
Lemma payment_type_line (t : DataFrame) (r : Row) (p : string) :
  r ∈ rows t → payment_type r = Some p → Float64.isnan (price r) = false →
  ∃ m, lookup_label p (analyze_payment_types lib t) = Some m ∧ 1 ≤ transaction_count m.
Proof.
  intros Hr Hp Hprice.
  destruct (lookup_label p (analyze_payment_types lib t)) as [m|] eqn:Hm.
  - exists m. split; [done|].
    apply lookup_label_Some_elem_of in Hm. unfold analyze_payment_types in Hm.
    rewrite <- list_fmap_compose in Hm.
    apply list_elem_of_fmap in Hm as ([k g] & [= -> ->] & Hkg).
    unfold groupby in Hkg. apply list_elem_of_fmap in Hkg as (k' & [= <- ->] & _).
    cbn [fst snd payment_ticket agg_price transaction_count].
    change (1 ≤ priced (filter (λ r, payment_type r = Some k) (rows t))).
    rewrite priced_filter.
    assert (r ∈ filter (λ r, Float64.isnan (price r) = false)
                  (filter (λ r, payment_type r = Some k) (rows t))) as Hin
      by (rewrite !list_elem_of_filter; auto).
    destruct (filter _ (filter _ _)); [by apply elem_of_nil in Hin|].
    cbn [length]. lia.
  - exfalso. apply lookup_label_None in Hm. apply Hm.
    unfold analyze_payment_types. rewrite <- !list_fmap_compose.
    change (p ∈ (groupby str_le payment_type (rows t)).*1).
    rewrite groupby_keys. apply elem_of_group_keys. eauto.
Qed.

(** X13.  The payment-type report and the two menu reports account for
    every row with a price once as well: the transaction counts of the
    payment types, the quantities sold of the items and those of the
    categories each add up to the number of rows that carry a price.  A
    row with a price and without payment type is counted in the line
    UNKNOWN. *)
Theorem payment_and_menu_account_for_priced_rows (df : DataFrame) :
  Ztotal ((λ km : string * PaymentMetrics, transaction_count km.2)
            <$> analyze_payment_types lib (preprocess lib df)) = priced (rows df) ∧
  Ztotal ((λ km : string * ItemMetrics, transaction_count km.2)
            <$> (analyze_menu_performance lib (preprocess lib df)).1) = priced (rows df) ∧
  Ztotal ((λ km : string * CategoryMetrics, transaction_count km.2)
            <$> (analyze_menu_performance lib (preprocess lib df)).2) = priced (rows df) ∧
  ∀ r, r ∈ rows df → payment_type r = None → Float64.isnan (price r) = false →
       ∃ m, lookup_label "UNKNOWN" (analyze_payment_types lib (preprocess lib df)) = Some m ∧
            1 ≤ transaction_count m.
Proof.
  split; [|split; [|split]].
  - unfold analyze_payment_types. rewrite <- !list_fmap_compose.
    apply (groupby_priced_preprocess str_le payment_type), payment_type_is_Some.
  - unfold analyze_menu_performance. cbn [fst]. rewrite <- list_fmap_compose.
    apply (groupby_priced_preprocess str_le (λ r, Some (item_name r))), Forall_forall.
    intros r _. by eexists.
  - unfold analyze_menu_performance. cbn [snd]. rewrite <- list_fmap_compose.
    apply (groupby_priced_preprocess str_le (λ r, Some (item_category r))), Forall_forall.
    intros r _. by eexists.
  - intros r Hr Hnone Hprice.
    apply (payment_type_line _ (enriched lib df r)).
    + rewrite rows_preprocess. apply list_elem_of_fmap. eauto.
    + cbn. by rewrite Hnone.
    + exact Hprice.
Qed.

Lemma server_rows_preprocess (df : DataFrame) :
  priced (filter (λ r, is_Some (server_id r)) (rows (preprocess lib df))) =
  priced (filter (λ r, is_Some (server_id r)) (rows df)).
Proof.
  unfold priced. rewrite rows_preprocess, filter_fmap_comm, <- list_fmap_compose.
  reflexivity.
Qed.

Lemma count_nonneg (xs : list float64) : 0 ≤ Series.count xs.
Proof. unfold Series.count. lia. Qed.

(** The lines of the server report before the threshold is applied. *)
Lemma server_performance_unfiltered (t : DataFrame) :
  analyze_server_performance lib t 0 ≡ₚ
  (λ kg : string * list Row,
     (kg.1,
      mkServerMetrics (agg_price lib kg.2) (Z.of_nat (length kg.2)) (count_anomalies kg.2)
        (Float64.round 2
           (Float64.div (Float64.of_Z (Z.of_nat (length kg.2)))
                        (Float64.of_Z (transaction_count (agg_price lib kg.2)))))))
    <$> groupby str_le server_id (rows t).
Proof.
  unfold analyze_server_performance. rewrite sort_values_Permutation.
  rewrite filter_all.
  - by rewrite <- list_fmap_compose.
  - apply Forall_fmap, Forall_forall. intros kg _. apply count_nonneg.
Qed.

(** X5.  The server report never has more lines than the basic statistics
    count servers, and with threshold 0 it has exactly one line for each;
    the transaction counts then add up to the number of rows that carry
    both a server and a price: a row without server is in no line. *)
Theorem server_report_and_basic_stats (df : DataFrame) (min_transactions : Z) :
  Z.of_nat (length (analyze_server_performance lib (preprocess lib df) min_transactions))
    ≤ unique_servers (get_basic_stats lib (preprocess lib df)) ∧
  Z.of_nat (length (analyze_server_performance lib (preprocess lib df) 0))
    = unique_servers (get_basic_stats lib (preprocess lib df)) ∧
  Ztotal ((λ sm : string * ServerMetrics, transaction_count sm.2)
            <$> analyze_server_performance lib (preprocess lib df) 0)
    = priced (filter (λ r, is_Some (server_id r)) (rows df)).
Proof.
  set (t := preprocess lib df).
  assert (Hgroups : Z.of_nat (length (groupby str_le server_id (rows t)))
                    = unique_servers (get_basic_stats lib t)).
  { unfold groupby, group_keys, get_basic_stats, Series.nunique. cbn [unique_servers].
    by rewrite length_fmap, merge_sort_Permutation. }
  split; [|split].
  - rewrite <- Hgroups. unfold analyze_server_performance.
    rewrite sort_values_Permutation, length_fmap.
    etransitivity; [apply inj_le, length_filter|]. by rewrite length_fmap.
  - by rewrite server_performance_unfiltered, length_fmap.
  - rewrite (Ztotal_Permutation _ _
      (fmap_Permutation _ _ _ (server_performance_unfiltered t))).
    rewrite <- list_fmap_compose.
    change (Ztotal ((λ kg : string * list Row, priced kg.2)
              <$> groupby str_le server_id (rows t))
            = priced (filter (λ r, is_Some (server_id r)) (rows df))).
    rewrite groupby_priced. apply server_rows_preprocess.
Qed.

Lemma strictly_outside_nan (b : float64 * float64) : strictly_outside NaN b = false.
Proof. destruct b as [lo hi]. by destruct lo, hi. Qed.

(** A flagged row has a price. *)
Lemma flagged_has_price (df : DataFrame) (r : Row) :
  r ∈ rows (preprocess lib df) → price_anomaly r = true →
  Float64.isnan (price r) = false.
Proof.
  intros (r0 & _ & ->)%elem_of_rows_preprocess.
  change (price_anomaly (enriched lib df r0))
    with (strictly_outside (price r0) (band lib df (item_name r0))).
  change (price (enriched lib df r0)) with (price r0).
  destruct (price r0); [done..| |done]. by rewrite strictly_outside_nan.
Qed.

Lemma length_filter_impl {A} (P1 P2 : A → Prop)
    `{!∀ x, Decision (P1 x), !∀ x, Decision (P2 x)} (l : list A) :
  (∀ x, x ∈ l → P1 x → P2 x) →
  (length (filter P1 l) ≤ length (filter P2 l))%nat.
Proof.
  intros Himpl.
  rewrite (filter_ext_elem_of P1 (λ x, P1 x ∧ P2 x)).
  2:{ intros x Hx. split; [|tauto]. intros ?. split; [done|]. by apply Himpl. }
  rewrite <- list_filter_filter. apply length_filter.
Qed.

(** X6.  Only a row with a price is flagged.  The anomalies of the basic
    statistics are the anomalies of the items added up, and no item has
    more anomalies than sales. *)
Theorem anomalies_are_priced_rows (df : DataFrame) :
  Forall (λ r, price_anomaly r = true → Float64.isnan (price r) = false)
    (rows (preprocess lib df)) ∧
  basic_price_anomalies (get_basic_stats lib (preprocess lib df)) =
    Ztotal ((λ km : string * ItemMetrics, item_price_anomalies km.2)
              <$> (analyze_menu_performance lib (preprocess lib df)).1) ∧
  Forall (λ km : string * ItemMetrics,
            0 ≤ item_price_anomalies km.2 ≤ transaction_count km.2)
    (analyze_menu_performance lib (preprocess lib df)).1 ∧
  basic_price_anomalies (get_basic_stats lib (preprocess lib df)) ≤ priced (rows df).
Proof.
  set (t := preprocess lib df).
  assert (Hrow : ∀ r, r ∈ rows t → price_anomaly r = true →
                      Float64.isnan (price r) = false)
    by apply flagged_has_price.
  split; [by apply Forall_forall|]. split; [|split].
  - unfold analyze_menu_performance, get_basic_stats.
    cbn [fst basic_price_anomalies]. rewrite <- list_fmap_compose.
    change (count_anomalies (rows t) =
            Ztotal ((λ kg : string * list Row,
                       Z.of_nat (length (filter (λ r, price_anomaly r = true) kg.2)))
                      <$> groupby str_le (λ r, Some (item_name r)) (rows t))).
    rewrite (Ztotal_of_nat (λ kg : string * list Row, length (filter _ kg.2))).
    rewrite groupby_counts. unfold count_anomalies. do 2 f_equal.
    apply list_filter_iff. intros r. split; [|tauto]. intros ?. split; [done|]. by eexists.
  - unfold analyze_menu_performance, groupby. cbn [fst].
    rewrite <- list_fmap_compose. apply Forall_fmap, Forall_forall. intros k _.
    set (g := filter (λ r, Some (item_name r) = Some k) (rows t)).
    change (0 ≤ count_anomalies g ≤ priced g).
    rewrite priced_filter. unfold count_anomalies. split; [lia|].
    apply inj_le, length_filter_impl. intros r [_ Hr]%list_elem_of_filter. by apply Hrow.
  - unfold get_basic_stats. cbn [basic_price_anomalies].
    rewrite <- priced_preprocess, priced_filter. unfold count_anomalies.
    apply inj_le, length_filter_impl. intros r Hr. by apply Hrow.
Qed.

Lemma StronglySorted_strict (l : list Z) :
  StronglySorted Z.le l → NoDup l → StronglySorted Z.lt l.
Proof.
  induction 1 as [|x l _ IH Hx]; intros Hnd; [constructor|].
  apply NoDup_cons in Hnd as [Hnotin Hnd]. constructor; [by apply IH|].
  apply Forall_forall. intros y Hy. eapply Forall_forall in Hx; [|done].
  assert (x ≠ y) by congruence. lia.
Qed.

Lemma group_keys_ascending {A} (key : A → option Z) (rs : list A) :
  StronglySorted Z.lt (group_keys Z.le key rs).
Proof.
  apply StronglySorted_strict; [|apply NoDup_group_keys].
  unfold group_keys. apply (StronglySorted_merge_sort Z.le).
Qed.

Lemma dt_hour_range (ts : Z) : 0 ≤ dt_hour ts ≤ 23.
Proof. unfold dt_hour. pose proof (Z.mod_pos_bound (ts `div` ns_per_hour) 24). lia. Qed.

(** X7.  The daily report has one line for each date of the table and the
    hourly report one line for each hour of the day that occurs, both in
    strictly ascending order; the hours lie between 0 and 23, so the
    hourly report has at most 24 lines. *)
Theorem daily_and_hourly_index (df : DataFrame) :
  StronglySorted Z.lt (analyze_daily_trends lib (preprocess lib df)).*1 ∧
  (∀ d, d ∈ (analyze_daily_trends lib (preprocess lib df)).*1 ↔
        ∃ r, r ∈ rows df ∧ dt_date (timestamp r) = d) ∧
  StronglySorted Z.lt (analyze_hourly_patterns lib (preprocess lib df)).*1 ∧
  (∀ h, h ∈ (analyze_hourly_patterns lib (preprocess lib df)).*1 ↔
        ∃ r, r ∈ rows df ∧ dt_hour (timestamp r) = h) ∧
  Forall (λ h, 0 ≤ h ≤ 23) (analyze_hourly_patterns lib (preprocess lib df)).*1 ∧
  (length (analyze_hourly_patterns lib (preprocess lib df)) ≤ 24)%nat.
Proof.
  unfold analyze_daily_trends, analyze_hourly_patterns.
  rewrite !keys_of_aggregate by done.
  assert (Hhours : ∀ h,
    h ∈ group_keys Z.le (λ r, Some (hour r)) (rows (preprocess lib df)) ↔
    ∃ r, r ∈ rows df ∧ dt_hour (timestamp r) = h).
  { intros h. rewrite elem_of_group_keys. split.
    - intros (r & (r0 & Hr0 & ->)%elem_of_rows_preprocess & [= <-]). by exists r0.
    - intros (r0 & Hr0 & <-). exists (enriched lib df r0).
      split; [|done]. apply elem_of_rows_preprocess. by exists r0. }
  assert (Hrange : ∀ h,
    h ∈ group_keys Z.le (λ r, Some (hour r)) (rows (preprocess lib df)) →
    0 ≤ h ≤ 23).
  { intros h (r & _ & <-)%Hhours. apply dt_hour_range. }
  split; [apply group_keys_ascending|]. split; [|split; [apply group_keys_ascending|]].
  - intros d. rewrite elem_of_group_keys. split.
    + intros (r & (r0 & Hr0 & ->)%elem_of_rows_preprocess & [= <-]). by exists r0.
    + intros (r0 & Hr0 & <-). exists (enriched lib df r0).
      split; [|done]. apply elem_of_rows_preprocess. by exists r0.
  - split; [done|]. split; [by apply Forall_forall|].
    unfold groupby. rewrite !length_fmap.
    change 24%nat with (Z.to_nat 24). rewrite <- (length_seqZ 0 24).
    apply submseteq_length, NoDup_submseteq; [apply NoDup_group_keys|].
    intros h Hh%Hrange. apply elem_of_seqZ. lia.
Qed.

End reports.

(** ** The report and its files *)

Section report.
Import utils.
Variable lib : Series.Reductions.

(** The loop that saves a report writes the tables in order and stops at
    the first path the file system refuses. *)
Lemma save_report_spec (can_write : string → bool) (output_path : string)
    (items written : list (string * ReportData)) :
  save_report can_write output_path items written =
  match list_find (λ f, can_write f.1 = false) (csv_files output_path items) with
  | None => (written ++ csv_files output_path items, None)
  | Some (i, f) =>
      (written ++ take i (csv_files output_path items), Some (ExternalError f.1))
  end.
Proof.
  revert written. induction items as [|[name data] items IH]; intros written.
  { cbn. by rewrite app_nil_r. }
  cbn [save_report]. unfold csv_files in *. rewrite filter_cons. cbn [snd].
  destruct (is_DataFrame data) eqn:Hdata.
  - rewrite decide_True by done. rewrite fmap_cons. cbn [list_find fst snd].
    unfold to_csv. fold (csv_path output_path name).
    destruct (can_write (csv_path output_path name)) eqn:Hw.
    + rewrite decide_False by done. rewrite IH.
      destruct (list_find _ _) as [[i f]|]; cbn; by rewrite <- app_assoc.
    + rewrite decide_True by done. cbn. by rewrite app_nil_r.
  - rewrite decide_False by done. apply IH.
Qed.

(** The tables of the report of [generate_report], as files. *)
Lemma report_csv_files (df : DataFrame) (output_path : string) :
  csv_files output_path
    [("basic_stats", BasicData (get_basic_stats lib df));
     ("daily_trends", DailyData (analyze_daily_trends lib df));
     ("hourly_patterns", HourlyData (analyze_hourly_patterns lib df));
     ("server_performance", ServerData (analyze_server_performance lib df 10));
     ("menu_performance", MenuData (analyze_menu_performance lib df));
     ("location_performance", LocationData (analyze_location_performance lib df));
     ("payment_analysis", PaymentData (analyze_payment_types lib df))] =
  [(csv_path output_path "daily_trends", DailyData (analyze_daily_trends lib df));
   (csv_path output_path "hourly_patterns", HourlyData (analyze_hourly_patterns lib df));
   (csv_path output_path "server_performance",
    ServerData (analyze_server_performance lib df 10));
   (csv_path output_path "location_performance",
    LocationData (analyze_location_performance lib df));
   (csv_path output_path "payment_analysis", PaymentData (analyze_payment_types lib df))].
Proof. reflexivity. Qed.

(** X8.  With a path and a file system that accepts every write, the
    report is returned with its seven sections and five files are written,
    in this order: the daily trends, the hourly patterns, the server
    performance at the default threshold 10, the location performance and
    the payment analysis.  The two tables of the menu performance are
    written to no file, and neither are the basic statistics.  Without a
    path, or with the empty path, nothing is written. *)
Theorem report_written_files (df : DataFrame) (output_path : string)
    (can_write : string → bool) :
  output_path ≠ "" → (∀ p, can_write p = true) →
  (generate_report lib df (Some output_path) can_write).1 =
    [(csv_path output_path "daily_trends", DailyData (analyze_daily_trends lib df));
     (csv_path output_path "hourly_patterns", HourlyData (analyze_hourly_patterns lib df));
     (csv_path output_path "server_performance",
      ServerData (analyze_server_performance lib df 10));
     (csv_path output_path "location_performance",
      LocationData (analyze_location_performance lib df));
     (csv_path output_path "payment_analysis", PaymentData (analyze_payment_types lib df))] ∧
  (∃ report,
     (generate_report lib df (Some output_path) can_write).2 = inr report ∧
     report.*1 = ["basic_stats"; "daily_trends"; "hourly_patterns";
                  "server_performance"; "menu_performance";
                  "location_performance"; "payment_analysis"] ∧
     generate_report lib df None can_write = ([], inr report) ∧
     generate_report lib df (Some "") can_write = ([], inr report)).
Proof.
  intros Hpath Hok. unfold generate_report.
  rewrite decide_False by done. rewrite save_report_spec, report_csv_files.
  destruct (list_find _ _) as [[i f]|] eqn:Hfind.
  { apply list_find_Some in Hfind as (_ & Hf & _). by rewrite Hok in Hf. }
  split; [done|]. eexists. split; [done|]. split; [done|]. split; done.
Qed.

(** X9.  When the file system refuses one of the five files, the call
    raises at the first refused one: the files before it stay written, the
    files after it are not written, and no report is returned. *)
Theorem report_write_failure (df : DataFrame) (output_path : string)
    (can_write : string → bool) (i : nat) (p : string) :
  output_path ≠ "" →
  list_find (λ q, can_write q = false) (csv_path output_path <$> written_sections)
    = Some (i, p) →
  (generate_report lib df (Some output_path) can_write).1.*1 =
    take i (csv_path output_path <$> written_sections) ∧
  (generate_report lib df (Some output_path) can_write).2 = inl (ExternalError p).
Proof.
  intros Hpath Hfind. unfold generate_report.
  rewrite decide_False by done. rewrite save_report_spec, report_csv_files.
  set (files := [_; _; _; _; _]).
  assert (Hpaths : files.*1 = csv_path output_path <$> written_sections) by done.
  rewrite <- Hpaths in Hfind.
  rewrite (list_find_fmap fst (λ q, can_write q = false) files) in Hfind.
  destruct (list_find _ files) as [[j f]|] eqn:Hfiles; [|done].
  injection Hfind as -> <-. cbn [fst snd].
  split; [|done]. by rewrite <- Hpaths, <- fmap_take.
Qed.

End report.

Lemma report_written_files_witness :
  "out" ≠ "" ∧ (∀ p : string, (λ _ : string, true) p = true) ∧
  (utils.generate_report sample.lib (utils.preprocess sample.lib sample.table1) (Some "out")
     (λ _, true)).1.*1 =
    ["out/daily_trends.csv"; "out/hourly_patterns.csv"; "out/server_performance.csv";
     "out/location_performance.csv"; "out/payment_analysis.csv"].
Proof.
  assert (H1 : "out" ≠ "") by discriminate.
  assert (H2 : ∀ p : string, (λ _ : string, true) p = true) by reflexivity.
  split; [exact H1|]. split; [exact H2|].
  destruct (report_written_files sample.lib (utils.preprocess sample.lib sample.table1)
              "out" (λ _, true) H1 H2) as [-> _].
  reflexivity.
Defined.

Lemma report_write_failure_witness :
  "out" ≠ "" ∧
  list_find (λ q, sample.refuses "out/server_performance.csv" q = false)
    (csv_path "out" <$> written_sections) = Some (2%nat, "out/server_performance.csv") ∧
  (utils.generate_report sample.lib (utils.preprocess sample.lib sample.table1) (Some "out")
     (sample.refuses "out/server_performance.csv")).1.*1 =
    ["out/daily_trends.csv"; "out/hourly_patterns.csv"] ∧
  (utils.generate_report sample.lib (utils.preprocess sample.lib sample.table1) (Some "out")
     (sample.refuses "out/server_performance.csv")).2 =
    inl (utils.ExternalError "out/server_performance.csv").
Proof.
  assert (H1 : "out" ≠ "") by discriminate.
  assert (H2 : list_find (λ q, sample.refuses "out/server_performance.csv" q = false)
                 (csv_path "out" <$> written_sections)
               = Some (2%nat, "out/server_performance.csv")) by reflexivity.
  split; [exact H1|]. split; [exact H2|].
  exact (report_write_failure sample.lib (utils.preprocess sample.lib sample.table1) "out"
           (sample.refuses "out/server_performance.csv") 2
           "out/server_performance.csv" H1 H2).
Defined.

(** ** Hourly volume by weekday *)

Section hourly_volume.
Import utils each_day_hourly.

Lemma getitem_keyed {V} (f : string → V) (ks : list string) (label : string) :
  getitem label ((λ k, (k, f k)) <$> ks) =
  if decide (label ∈ ks) then inr (f label) else inl (KeyError label).
Proof. unfold getitem. rewrite lookup_label_keyed. by case_decide. Qed.

(** The averages are computed for every row of [hourly_volume] whose
    weekday has a count of dates. *)
Lemma with_avg_orders_keyed (f : string → Z) (ks : list string)
    (hourly_volume : list ((string * Z) * Z)) :
  Forall (λ kv, kv.1.1 ∈ ks) hourly_volume →
  with_avg_orders ((λ k, (k, f k)) <$> ks) hourly_volume =
  inr ((λ kv : (string * Z) * Z,
          (kv.1, (kv.2, average_orders kv.2 (f kv.1.1)))) <$> hourly_volume).
Proof.
  induction 1 as [|[key n] hv Hkey _ IH]; [done|].
  cbn [with_avg_orders]. rewrite getitem_keyed, decide_True by done.
  by rewrite IH.
Qed.

(** The validation loop fails at the first weekday without a count of
    dates. *)
Lemma validation_spec (f : string → Z) (ks : list string) (rs : list Row)
    (days : list string) :
  validation ((λ k, (k, f k)) <$> ks) rs days =
  match list_find (λ day, day ∉ ks) days with
  | Some (_, day) => inl (KeyError day)
  | None =>
      inr ((λ day,
              let n := Z.of_nat (length (filter (λ r, day_of_week r = day) rs)) in
              (day, mkDayCheck n (f day)
                      (Float64.div (Float64.of_Z n) (Float64.of_Z (f day)))))
             <$> days)
  end.
Proof.
  induction days as [|day days IH]; [done|].
  cbn [validation list_find]. rewrite getitem_keyed.
  destruct (decide (day ∈ ks)) as [Hin|Hin].
  - rewrite decide_False by tauto. rewrite IH.
    by destruct (list_find _ days) as [[i day']|].
  - by rewrite decide_True.
Qed.

Lemma rows_with_time_columns (d : DataFrame) :
  rows (with_time_columns d) =
  (λ r, set_date (dt_date (timestamp r))
          (set_hour (dt_hour (timestamp r))
             (set_day_of_week (dt_day_name (timestamp r)) r))) <$> rows d.
Proof.
  unfold with_time_columns, assign_date, assign_hour, assign_day_of_week, assign.
  cbn [rows]. rewrite <- !list_fmap_compose. by apply list_fmap_ext.
Qed.


(** The call writes the frame stored at [df] and computes on what it
    wrote. *)
Lemma analyze_daily_hourly_patterns_eq (h : heap) (df : ref) (d : DataFrame) :
  h !! df = Some d →
  analyze_daily_hourly_patterns df h =
  Some (<[df := with_time_columns d]> h,
        hourly_volume_by_weekday (with_time_columns d)).
Proof.
  intros Hdf. unfold analyze_daily_hourly_patterns.
  rewrite (update_Some _ _ _ _ Hdf). cbn [mbind option_bind].
  rewrite (update_Some df assign_hour _ _ (lookup_insert_eq _ _ _)).
  cbn [mbind option_bind]. rewrite insert_insert_eq.
  rewrite (update_Some df assign_date _ _ (lookup_insert_eq _ _ _)).
  cbn [mbind option_bind]. by rewrite insert_insert_eq, lookup_insert_eq.
Qed.

(** A table has no group exactly when it has no row. *)
Lemma groupby_nil `{EqDecision K} (R : relation K) `{!RelDecision R}
    (key : Row → K) (rs : list Row) :
  groupby R (λ r, Some (key r)) rs = [] ↔ rs = [].
Proof.
  split; [|by intros ->].
  destruct rs as [|r rs]; [done|]. intros Hnil.
  assert (Hin : key r ∈ (groupby R (λ r, Some (key r)) (r :: rs)).*1).
  { rewrite groupby_keys. apply elem_of_group_keys. exists r.
    split; [apply elem_of_cons; auto|done]. }
  rewrite Hnil in Hin. by apply elem_of_nil in Hin.
Qed.

(** The outcome for a table that has the three columns. *)
Lemma hourly_volume_by_weekday_eq (t : DataFrame) :
  rows t ≠ [] →
  hourly_volume_by_weekday t =
  match list_find (λ day, day ∉ group_keys str_le (λ r, Some (day_of_week r)) (rows t))
          days_order with
  | Some (_, day) => inl (KeyError day)
  | None =>
      inr ((λ k : string * Z,
              (k, (day_hour_bucket t k.1 k.2,
                   average_orders (day_hour_bucket t k.1 k.2) (day_dates t k.1))))
             <$> group_keys (pair_le str_le Z.le)
                   (λ r, Some (day_of_week r, hour r)) (rows t),
           (λ day,
              (day, mkDayCheck (day_bucket t day) (day_dates t day)
                      (Float64.div (Float64.of_Z (day_bucket t day))
                                   (Float64.of_Z (day_dates t day)))))
             <$> days_order)
  end.
Proof.
  intros Hrows. unfold hourly_volume_by_weekday.
  rewrite decide_False.
  2:{ intros Hnil%fmap_nil_inv.
      by apply (groupby_nil _ (λ r, (day_of_week r, hour r))) in Hnil. }
  rewrite (agg_groupby str_le (λ _ g, Series.nunique (date <$> g))).
  rewrite (agg_groupby (pair_le str_le Z.le) (λ _ g, Z.of_nat (length g))).
  erewrite (list_fmap_ext _ (λ k, (k, day_dates t k)) (group_keys str_le _ _)).
  2:{ intros i k _. unfold day_dates. do 3 f_equal.
      apply list_filter_iff. intros r. split; congruence. }
  rewrite with_avg_orders_keyed.
  2:{ apply Forall_fmap, Forall_forall. intros [day hr] Hk. cbn.
      apply elem_of_group_keys in Hk as (r & Hr & [= <- <-]).
      apply elem_of_group_keys. eauto. }
  rewrite validation_spec.
  destruct (list_find _ days_order) as [[i day]|]; [done|].
  rewrite <- list_fmap_compose. do 2 f_equal.
  apply list_fmap_ext. intros i [day hr] _.
  assert (filter (λ r, Some (day_of_week r, hour r) = Some (day, hr)) (rows t)
          = filter (λ r, day_of_week r = day ∧ hour r = hr) (rows t)) as Hf.
  { apply list_filter_iff. intros r. split; [by intros [= -> ->]|by intros [-> ->]]. }
  unfold day_hour_bucket. cbn. by rewrite Hf.
Qed.

Lemma elem_of_add_column (name c : string) (cols : list string) :
  c ∈ add_column name cols ↔ c = name ∨ c ∈ cols.
Proof.
  unfold add_column. case_decide as Hin.
  - split; [auto|]. by intros [->|?].
  - rewrite elem_of_app, list_elem_of_singleton. tauto.
Qed.

Lemma weekday_hour_orders_eq (d : DataFrame) (day : string) (hr : Z) :
  day_hour_bucket (with_time_columns d) day hr = weekday_hour_orders d day hr.
Proof.
  unfold weekday_hour_orders, day_hour_bucket.
  by rewrite rows_with_time_columns, filter_fmap_comm, length_fmap.
Qed.

Lemma weekday_orders_eq (d : DataFrame) (day : string) :
  day_bucket (with_time_columns d) day = weekday_orders d day.
Proof.
  unfold weekday_orders, day_bucket.
  by rewrite rows_with_time_columns, filter_fmap_comm, length_fmap.
Qed.

Lemma weekday_dates_eq (d : DataFrame) (day : string) :
  day_dates (with_time_columns d) day = weekday_dates d day.
Proof.
  unfold weekday_dates, day_dates.
  by rewrite rows_with_time_columns, filter_fmap_comm, <- list_fmap_compose.
Qed.

(** X10.  The call assigns the columns day_of_week, hour and date to the
    table it is given, not to a copy: when it ends, also with an
    exception, the caller's table has the three columns, filled from the
    timestamps, and every other frame is as it was. *)
Theorem hourly_patterns_writes_caller_table (h : heap) (df : ref) (d : DataFrame) :
  h !! df = Some d →
  ∃ h' out,
    analyze_daily_hourly_patterns df h = Some (h', out) ∧
    (∀ l, l ≠ df → h' !! l = h !! l) ∧
    ∃ d',
      h' !! df = Some d' ∧
      (∀ c, c ∈ columns d' ↔ c ∈ columns d ∨ c ∈ ["day_of_week"; "hour"; "date"]) ∧
      rows d' =
        (λ r, set_date (dt_date (timestamp r))
                (set_hour (dt_hour (timestamp r))
                   (set_day_of_week (dt_day_name (timestamp r)) r))) <$> rows d.
Proof.
  intros Hdf. rewrite (analyze_daily_hourly_patterns_eq h df d Hdf).
  eexists _, _. split; [done|]. split.
  { intros l Hl. by rewrite lookup_insert_ne. }
  exists (with_time_columns d). split; [by rewrite lookup_insert_eq|].
  split; [|apply rows_with_time_columns].
  intros c. unfold with_time_columns, assign_date, assign_hour, assign_day_of_week, assign.
  cbn [columns]. rewrite !elem_of_add_column, !elem_of_cons, elem_of_nil. tauto.
Qed.

(** On a table without rows the assignment of [avg_orders] raises. *)
Lemma hourly_volume_by_weekday_empty (t : DataFrame) :
  rows t = [] → hourly_volume_by_weekday t = inl ValueError.
Proof. unfold hourly_volume_by_weekday. by intros ->. Qed.



(** X12.  When the call returns, [hourly_volume] has a row exactly for
    the pairs of a weekday and an hour in which the table has an order,
    with no row for the others; the row holds the number of those orders
    and their average, the number divided by the number of distinct dates
    of that weekday and rounded to one decimal.  The validation
    statistics give, for each weekday, its orders, its dates and their
    quotient. *)
Theorem hourly_volume_values (h h' : heap) (df : ref) (d : DataFrame)
    (volume : list ((string * Z) * (Z * float64))) (checks : list (string * DayCheck)) :
  h !! df = Some d →
  analyze_daily_hourly_patterns df h = Some (h', inr (volume, checks)) →
  (∀ day hr,
     lookup_label (day, hr) volume =
     if decide (weekday_hour_orders d day hr = 0) then None
     else Some (weekday_hour_orders d day hr,
                Float64.round 1
                  (Float64.div (Float64.of_Z (weekday_hour_orders d day hr))
                               (Float64.of_Z (weekday_dates d day))))) ∧
  checks =
    (λ day, (day, mkDayCheck (weekday_orders d day) (weekday_dates d day)
                    (Float64.div (Float64.of_Z (weekday_orders d day))
                                 (Float64.of_Z (weekday_dates d day)))))
      <$> days_order.
Proof.
  intros Hdf. rewrite (analyze_daily_hourly_patterns_eq h df d Hdf).
  destruct (decide (rows (with_time_columns d) = [])) as [Hnil|Hrows].
  { by rewrite hourly_volume_by_weekday_empty. }
  rewrite hourly_volume_by_weekday_eq by done.
  destruct (list_find _ days_order) as [[i day]|]; [done|].
  intros [= _ <- <-]. split.
  - intros day hr. rewrite lookup_label_keyed. cbn [fst snd].
    rewrite weekday_hour_orders_eq, weekday_dates_eq.
    destruct (decide (weekday_hour_orders d day hr = 0)) as [Hz|Hnz].
    + rewrite decide_False; [done|]. intros (r & Hr & [= Hday Hhr])%elem_of_group_keys.
      rewrite <- weekday_hour_orders_eq in Hz. unfold day_hour_bucket in Hz.
      destruct (filter _ _) as [|x xs] eqn:Hf; [|done].
      assert (Hin : r ∈ filter (λ r, day_of_week r = day ∧ hour r = hr)
                          (rows (with_time_columns d)))
        by (apply list_elem_of_filter; auto).
      rewrite Hf in Hin. by apply elem_of_nil in Hin.
    + rewrite decide_True; [done|]. apply elem_of_group_keys.
      rewrite <- weekday_hour_orders_eq in Hnz. unfold day_hour_bucket in Hnz.
      destruct (filter _ _) as [|x xs] eqn:Hf; [done|].
      assert (Hx : x ∈ x :: xs) by (apply elem_of_cons; auto).
      rewrite <- Hf in Hx. apply list_elem_of_filter in Hx as [[<- <-] Hx].
      by exists x.
  - by rewrite !weekday_orders_eq, !weekday_dates_eq.
Qed.

End hourly_volume.

Lemma hourly_patterns_writes_caller_table_witness :
  ({[1%positive := sample.week]} : utils.heap) !! 1%positive = Some sample.week ∧
  ∃ h' out,
    each_day_hourly.analyze_daily_hourly_patterns 1%positive {[1%positive := sample.week]}
      = Some (h', out) ∧
    (∀ l, l ≠ 1%positive →
          h' !! l = ({[1%positive := sample.week]} : utils.heap) !! l) ∧
    ∃ d',
      h' !! 1%positive = Some d' ∧
      (∀ c, c ∈ columns d' ↔
            c ∈ columns sample.week ∨ c ∈ ["day_of_week"; "hour"; "date"]) ∧
      rows d' =
        (λ r, set_date (dt_date (timestamp r))
                (set_hour (dt_hour (timestamp r))
                   (set_day_of_week (dt_day_name (timestamp r)) r)))
          <$> rows sample.week.
Proof.
  split; [reflexivity|].
  exact (hourly_patterns_writes_caller_table
           {[1%positive := sample.week]} 1%positive sample.week eq_refl).
Defined.


Lemma hourly_volume_values_witness :
  ∃ h' volume checks,
    each_day_hourly.analyze_daily_hourly_patterns 1%positive {[1%positive := sample.week]}
      = Some (h', inr (volume, checks)) ∧
    lookup_label ("Monday", 12) volume = Some (2, Fin 1) ∧
    lookup_label ("Monday", 9) volume = Some (1, Fin (1 # 2)) ∧
    lookup_label ("Tuesday", 12) volume = Some (1, Fin 1) ∧
    lookup_label ("Tuesday", 9) volume = None ∧
    lookup_label "Monday" checks
      = Some (each_day_hourly.mkDayCheck 3 2 (Fin (3 # 2))).
Proof.
  destruct (each_day_hourly.analyze_daily_hourly_patterns 1%positive
              {[1%positive := sample.week]}) as [[h' [e|[volume checks]]]|] eqn:E;
    [vm_compute in E; discriminate E| |vm_compute in E; discriminate E].
  exists h', volume, checks. split; [reflexivity|].
  assert (Hdf : ({[1%positive := sample.week]} : utils.heap) !! 1%positive
                = Some sample.week) by reflexivity.
  destruct (hourly_volume_values _ h' 1%positive sample.week volume checks Hdf E)
    as [Hvolume Hchecks].
  rewrite !Hvolume, Hchecks. vm_compute. repeat split; reflexivity.
Defined.
